(** * The transactional document store of lrgp-bill ([src/database.ts])

    The store is one in-memory SQLite database (sql.js) with eight tables.
    Every table is declared [id TEXT PRIMARY KEY] (the settings table:
    [key TEXT PRIMARY KEY]), so a table is a finite map from the key to the
    remaining columns.  Operations are functions from the database before
    the call to the outcome of the returned promise and the database after
    it.  A [BEGIN TRANSACTION] ... [COMMIT] block with its [ROLLBACK] in the
    [catch] is a computation in an error monad over the database: a throw
    discards the writes made since [BEGIN].

    Modelling conventions.
    - JavaScript numbers and SQLite REAL columns are exact integers ([Z]);
      rounding of IEEE doubles is outside the model.
    - [Date.now()] and [new Date().toISOString()] are inputs of the
      operations that call them.
    - A TEXT column that carries JSON is represented by what [JSON.parse]
      makes of it ([JsonText]): either the value it decodes to, of the type
      [src/types.ts] declares for the field, or text that [JSON.parse]
      rejects.  [JSON.stringify v] is the text decoding to [v].
    - A partial record ([Partial<TData>]) is the list of its entries; an
      entry always carries a value (no key set to [undefined]).
    - The durable copy kept in IndexedDB ([saveDbToIdb]) is not modelled. *)

From stdpp Require Import gmap strings list fin_maps pretty.
From Stdlib Require Import ZArith.

Set Warnings "-register-all".
Local Open Scope Z_scope.

(** ** JavaScript values and outcomes *)

Inductive JsonText (A : Type) : Type :=
| JsonOf (v : A)
| NotJson (raw : string).
Arguments JsonOf {A} v.
Arguments NotJson {A} raw.

(** JSON values as [JSON.parse] returns them (settings blobs are read with
    a cast, so any JSON value can come back). *)
Inductive json : Type :=
| JNull
| JBool (b : bool)
| JNum (n : Z)
| JStr (s : string)
| JArr (elems : list json)
| JObj (members : list (string * json)).

Inductive Error : Type :=
| ProductNotFound (productId : string)
    (* new Error(`Product with id ${productId} not found.`) *)
| StockCannotBeNegative (currentStock : option Z) (quantity : Z)
    (* new Error(`Stock cannot be negative. Current stock is ...`) *)
| SqliteError (message : string)
    (* thrown by sql.js from prepare/run *)
| TypeError (message : string).
    (* a method call on a value that lacks the method *)

(** How the promise returned by an [async] method settles. *)
Inductive Outcome (A : Type) : Type :=
| Returned (a : A)
| Thrown (e : Error).
Arguments Returned {A} a.
Arguments Thrown {A} e.

(** ** Rows ([src/types.ts], [createTables]) *)

Record Address : Type := {
  line1 : string; line2 : string; district : string;
  state : string; country : string; pincode : string
}.

Record InvoiceItem : Type := {
  item_productId : option string;
  item_customItemName : option string;
  item_hsnCode : option string;
  item_quantity : Z;
  item_rate : Z;
  item_taxRate : Z
}.

Record Product : Type := {
  product_name : string;
  product_sku : option string;
  product_hsnCode : option string;
  product_category : option string;
  product_salePrice : Z;
  product_purchasePrice : Z;
  product_taxRate : option Z;
  product_stock : option Z;          (* NULL for services *)
  product_reorderPoint : option Z;
  product_isService : bool
}.

Record Customer : Type := {
  customer_name : string;
  customer_email : option string;
  customer_phone : option string;
  customer_billingAddress : JsonText Address;
  customer_shippingAddress : JsonText Address;
  customer_gstin : option string
}.

Record Supplier : Type := {
  supplier_name : string;
  supplier_email : option string;
  supplier_phone : option string;
  supplier_address : JsonText Address;
  supplier_gstin : option string
}.

Record SalesInvoice : Type := {
  si_invoiceNumber : string;
  si_customerId : string;
  si_invoiceDate : string;
  si_dueDate : string;
  si_items : JsonText (list InvoiceItem);
  si_status : string;
  si_amountPaid : option Z
}.

Record Quotation : Type := {
  quo_quotationNumber : string;
  quo_customerId : string;
  quo_quoteDate : string;
  quo_expiryDate : string;
  quo_items : JsonText (list InvoiceItem);
  quo_status : string
}.

Record PurchaseInvoice : Type := {
  pi_invoiceNumber : string;
  pi_supplierId : string;
  pi_purchaseDate : string;
  pi_items : JsonText (list InvoiceItem);
  pi_status : string;
  pi_amountPaid : option Z
}.

Record StockAdjustment : Type := {
  sa_productId : string;
  sa_date : string;
  sa_quantityChange : Z;
  sa_reason : string
}.

(** ** The database *)

Record Db : Type := {
  settings : gmap string (JsonText json);
  products : gmap string Product;
  customers : gmap string Customer;
  suppliers : gmap string Supplier;
  sales_invoices : gmap string SalesInvoice;
  quotations : gmap string Quotation;
  purchase_invoices : gmap string PurchaseInvoice;
  stock_adjustments : gmap string StockAdjustment
}.

Definition with_settings (f : gmap string (JsonText json) → gmap string (JsonText json)) (db : Db) : Db :=
  {| settings := f (settings db); products := products db; customers := customers db;
     suppliers := suppliers db; sales_invoices := sales_invoices db;
     quotations := quotations db; purchase_invoices := purchase_invoices db;
     stock_adjustments := stock_adjustments db |}.

Definition with_products (f : gmap string Product → gmap string Product) (db : Db) : Db :=
  {| settings := settings db; products := f (products db); customers := customers db;
     suppliers := suppliers db; sales_invoices := sales_invoices db;
     quotations := quotations db; purchase_invoices := purchase_invoices db;
     stock_adjustments := stock_adjustments db |}.

Definition with_customers (f : gmap string Customer → gmap string Customer) (db : Db) : Db :=
  {| settings := settings db; products := products db; customers := f (customers db);
     suppliers := suppliers db; sales_invoices := sales_invoices db;
     quotations := quotations db; purchase_invoices := purchase_invoices db;
     stock_adjustments := stock_adjustments db |}.

Definition with_suppliers (f : gmap string Supplier → gmap string Supplier) (db : Db) : Db :=
  {| settings := settings db; products := products db; customers := customers db;
     suppliers := f (suppliers db); sales_invoices := sales_invoices db;
     quotations := quotations db; purchase_invoices := purchase_invoices db;
     stock_adjustments := stock_adjustments db |}.

Definition with_sales_invoices (f : gmap string SalesInvoice → gmap string SalesInvoice) (db : Db) : Db :=
  {| settings := settings db; products := products db; customers := customers db;
     suppliers := suppliers db; sales_invoices := f (sales_invoices db);
     quotations := quotations db; purchase_invoices := purchase_invoices db;
     stock_adjustments := stock_adjustments db |}.

Definition with_quotations (f : gmap string Quotation → gmap string Quotation) (db : Db) : Db :=
  {| settings := settings db; products := products db; customers := customers db;
     suppliers := suppliers db; sales_invoices := sales_invoices db;
     quotations := f (quotations db); purchase_invoices := purchase_invoices db;
     stock_adjustments := stock_adjustments db |}.

Definition with_purchase_invoices (f : gmap string PurchaseInvoice → gmap string PurchaseInvoice) (db : Db) : Db :=
  {| settings := settings db; products := products db; customers := customers db;
     suppliers := suppliers db; sales_invoices := sales_invoices db;
     quotations := quotations db; purchase_invoices := f (purchase_invoices db);
     stock_adjustments := stock_adjustments db |}.

Definition with_stock_adjustments (f : gmap string StockAdjustment → gmap string StockAdjustment) (db : Db) : Db :=
  {| settings := settings db; products := products db; customers := customers db;
     suppliers := suppliers db; sales_invoices := sales_invoices db;
     quotations := quotations db; purchase_invoices := purchase_invoices db;
     stock_adjustments := f (stock_adjustments db) |}.

(** ** SQL statements

    The statements the source prepares, on a table keyed by its primary
    key. *)

(** [INSERT INTO t VALUES (id, ...)]: the PRIMARY KEY rejects a key that is
    already there. *)
Definition sql_insert {R : Type} (id : string) (row : R) (t : gmap string R)
  : Error + gmap string R :=
  match t !! id with
  | None => inr (<[id := row]> t)
  | Some _ => inl (SqliteError "UNIQUE constraint failed")
  end.

(** [UPDATE t SET k1 = ?, k2 = ? ... WHERE id = ?], the SET clause built
    from the entries of the partial record.  With no entry the text is
    [UPDATE t SET  WHERE id = ?], which SQLite does not parse: [prepare]
    throws. *)
Definition sql_update_set {R F : Type} (assign : F → R → R)
    (fieldEntries : list F) (id : string) (t : gmap string R)
  : Error + gmap string R :=
  match fieldEntries with
  | [] => inl (SqliteError "near WHERE: syntax error")
  | _ => inr (alter (λ row, foldl (λ r e, assign e r) row fieldEntries) id t)
  end.

(** [DELETE FROM t WHERE id = ?] *)
Definition sql_delete {R : Type} (id : string) (t : gmap string R) : gmap string R :=
  delete id t.

(** SQL arithmetic on a nullable column: NULL + q is NULL. *)
Definition sql_plus (col : option Z) (q : Z) : option Z :=
  match col with Some s => Some (s + q) | None => None end.

Definition sql_minus (col : option Z) (q : Z) : option Z :=
  match col with Some s => Some (s - q) | None => None end.

Definition set_stock (f : option Z → option Z) (p : Product) : Product :=
  {| product_name := product_name p; product_sku := product_sku p;
     product_hsnCode := product_hsnCode p; product_category := product_category p;
     product_salePrice := product_salePrice p;
     product_purchasePrice := product_purchasePrice p;
     product_taxRate := product_taxRate p;
     product_stock := f (product_stock p);
     product_reorderPoint := product_reorderPoint p;
     product_isService := product_isService p |}.

(** [UPDATE products SET stock = stock + ? WHERE id = ?] *)
Definition stock_add (quantity : Z) (id : string) (ps : gmap string Product)
  : gmap string Product :=
  alter (set_stock (λ s, sql_plus s quantity)) id ps.

(** [UPDATE products SET stock = stock - ? WHERE id = ?] *)
Definition stock_sub (quantity : Z) (id : string) (ps : gmap string Product)
  : gmap string Product :=
  alter (set_stock (λ s, sql_minus s quantity)) id ps.

(** ** Transactions *)

Definition Tx (A : Type) : Type := Db → Error + (A * Db).

Definition tx_ret {A : Type} (a : A) : Tx A := λ db, inr (a, db).

Definition tx_bind {A B : Type} (c : Tx A) (k : A → Tx B) : Tx B :=
  λ db, match c db with
        | inl e => inl e
        | inr (a, db') => k a db'
        end.

Definition tx_throw {A : Type} (e : Error) : Tx A := λ _, inl e.

(** A statement that always succeeds. *)
Definition tx_run (f : Db → Db) : Tx unit := λ db, inr (tt, f db).

(** A statement that may throw. *)
Definition tx_try (f : Db → Error + Db) : Tx unit :=
  λ db, match f db with
        | inl e => inl e
        | inr db' => inr (tt, db')
        end.

#[global] Instance tx_mret : MRet Tx := @tx_ret.
#[global] Instance tx_mbind : MBind Tx := λ A B k c, tx_bind c k.

(** [BEGIN TRANSACTION; try { body; COMMIT } catch (e) { ROLLBACK; ... }]:
    the database after a throw is the one at [BEGIN]. *)
Definition transaction {A : Type} (body : Tx A) (db : Db) : (Error + A) * Db :=
  match body db with
  | inl e => (inl e, db)
  | inr (a, db') => (inr a, db')
  end.

(** JavaScript coercions the source relies on. *)

(** [null + quantity]: null counts as 0 in arithmetic. *)
Definition to_number (v : option Z) : Z := default 0 v.

(** [if (item.productId)]: undefined and the empty string are falsy. *)
Definition truthy_string (s : option string) : option string :=
  match s with
  | Some "" => None
  | other => other
  end.

(** [x.forEach] / [x.map] on a parsed JSON column: [parseJsonFields] leaves
    the raw string in place when the text does not parse, and a string has
    neither method. *)
Definition as_array {A : Type} (c : JsonText (list A)) : Tx (list A) :=
  match c with
  | JsonOf l => tx_ret l
  | NotJson _ => tx_throw (TypeError "items.forEach is not a function")
  end.

(** ** The generic record store ([createStore])

    [Partial<TData>] is the list of its entries ([Object.entries(data)]),
    each a column with its new value; [assign] is what [SET column = ?]
    does to a row. *)

Record Store (R F : Type) : Type := {
  tableName : string;
  rows : Db → gmap string R;
  with_rows : (gmap string R → gmap string R) → Db → Db;
  assign : F → R → R
}.
Arguments tableName {R F} _.
Arguments rows {R F} _ _.
Arguments with_rows {R F} _ _ _.
Arguments assign {R F} _ _ _.

(** [db.prepare(sql)] returns a statement whose [?] is not bound yet;
    [stmt.bind([v])] binds it.  [stmt.step()] is declared by sql.js without
    a parameter: an argument passed to it is dropped, as JavaScript does
    with any surplus argument, and the statement runs with what is bound at
    that moment.  SQLite reads an unbound parameter as NULL, and
    [column = NULL] holds of no row. *)
Record Statement : Type := { bound : option string }.

Definition prepare : Statement := {| bound := None |}.

Definition bind (v : string) (stmt : Statement) : Statement := {| bound := Some v |}.

(** [column = ?] *)
Definition sql_eq (column : string) (param : option string) : bool :=
  match param with
  | Some v => bool_decide (column = v)
  | None => false
  end.

(** [stmt.step(args)] for [SELECT ... FROM t WHERE id = ?]: the row that
    [getAsObject] then reads, if there is one. *)
Definition step_by_id {R : Type} (t : gmap string R) (stmt : Statement)
    (args : list string) : option R :=
  match bound stmt with
  | Some id => t !! id
  | None => None
  end.

(** [stmt.step(args)] for [SELECT 1 FROM t WHERE column = ? LIMIT 1]: true
    when a row is available. *)
Definition step_exists {R : Type} (column : R → string) (t : gmap string R)
    (stmt : Statement) (args : list string) : bool :=
  existsb (λ kv, sql_eq (column kv.2) (bound stmt)) (map_to_list t).

Module createStore.
Section createStore.
Context {R F : Type} (S : Store R F).

Definition getById (id : string) (db : Db) : option R :=
  step_by_id (rows S db) (bind id prepare) [].

Definition update (id : string) (data : list F) (db : Db) : Outcome (option R) * Db :=
  match data with
  | [] => (Returned (getById id db), db)
  | _ =>
      match sql_update_set (assign S) data id (rows S db) with
      | inl e => (Thrown e, db)
      | inr t =>
          let db' := with_rows S (λ _, t) db in
          (Returned (getById id db'), db')
      end
  end.

Definition delete (id : string) (db : Db) : Outcome bool * Db :=
  (Returned true, with_rows S (sql_delete id) db).
End createStore.
End createStore.

(** Entries of the partial records, per entity. *)

Inductive ProductField : Type :=
| Set_product_name (v : string)
| Set_product_sku (v : option string)
| Set_product_hsnCode (v : option string)
| Set_product_category (v : option string)
| Set_product_salePrice (v : Z)
| Set_product_purchasePrice (v : Z)
| Set_product_taxRate (v : option Z)
| Set_product_stock (v : option Z)
| Set_product_reorderPoint (v : option Z)
| Set_product_isService (v : bool).

Definition assign_product (e : ProductField) (p : Product) : Product :=
  let '{| product_name := n; product_sku := sk; product_hsnCode := h;
          product_category := c; product_salePrice := sp;
          product_purchasePrice := pp; product_taxRate := t;
          product_stock := st; product_reorderPoint := r;
          product_isService := sv |} := p in
  match e with
  | Set_product_name v => Build_Product v sk h c sp pp t st r sv
  | Set_product_sku v => Build_Product n v h c sp pp t st r sv
  | Set_product_hsnCode v => Build_Product n sk v c sp pp t st r sv
  | Set_product_category v => Build_Product n sk h v sp pp t st r sv
  | Set_product_salePrice v => Build_Product n sk h c v pp t st r sv
  | Set_product_purchasePrice v => Build_Product n sk h c sp v t st r sv
  | Set_product_taxRate v => Build_Product n sk h c sp pp v st r sv
  | Set_product_stock v => Build_Product n sk h c sp pp t v r sv
  | Set_product_reorderPoint v => Build_Product n sk h c sp pp t st v sv
  | Set_product_isService v => Build_Product n sk h c sp pp t st r v
  end.

Inductive CustomerField : Type :=
| Set_customer_name (v : string)
| Set_customer_email (v : option string)
| Set_customer_phone (v : option string)
| Set_customer_billingAddress (v : Address)
| Set_customer_shippingAddress (v : Address)
| Set_customer_gstin (v : option string).

Definition assign_customer (e : CustomerField) (c : Customer) : Customer :=
  let '{| customer_name := n; customer_email := em; customer_phone := ph;
          customer_billingAddress := b; customer_shippingAddress := s;
          customer_gstin := g |} := c in
  match e with
  | Set_customer_name v => Build_Customer v em ph b s g
  | Set_customer_email v => Build_Customer n v ph b s g
  | Set_customer_phone v => Build_Customer n em v b s g
  | Set_customer_billingAddress v => Build_Customer n em ph (JsonOf v) s g
  | Set_customer_shippingAddress v => Build_Customer n em ph b (JsonOf v) g
  | Set_customer_gstin v => Build_Customer n em ph b s v
  end.

Inductive SupplierField : Type :=
| Set_supplier_name (v : string)
| Set_supplier_email (v : option string)
| Set_supplier_phone (v : option string)
| Set_supplier_address (v : Address)
| Set_supplier_gstin (v : option string).

Definition assign_supplier (e : SupplierField) (s : Supplier) : Supplier :=
  let '{| supplier_name := n; supplier_email := em; supplier_phone := ph;
          supplier_address := a; supplier_gstin := g |} := s in
  match e with
  | Set_supplier_name v => Build_Supplier v em ph a g
  | Set_supplier_email v => Build_Supplier n v ph a g
  | Set_supplier_phone v => Build_Supplier n em v a g
  | Set_supplier_address v => Build_Supplier n em ph (JsonOf v) g
  | Set_supplier_gstin v => Build_Supplier n em ph a v
  end.

Inductive SalesInvoiceField : Type :=
| Set_si_invoiceNumber (v : string)
| Set_si_customerId (v : string)
| Set_si_invoiceDate (v : string)
| Set_si_dueDate (v : string)
| Set_si_items (v : list InvoiceItem)
| Set_si_status (v : string)
| Set_si_amountPaid (v : option Z).

Definition assign_sales_invoice (e : SalesInvoiceField) (i : SalesInvoice) : SalesInvoice :=
  let '{| si_invoiceNumber := n; si_customerId := c; si_invoiceDate := d;
          si_dueDate := du; si_items := it; si_status := s;
          si_amountPaid := a |} := i in
  match e with
  | Set_si_invoiceNumber v => Build_SalesInvoice v c d du it s a
  | Set_si_customerId v => Build_SalesInvoice n v d du it s a
  | Set_si_invoiceDate v => Build_SalesInvoice n c v du it s a
  | Set_si_dueDate v => Build_SalesInvoice n c d v it s a
  | Set_si_items v => Build_SalesInvoice n c d du (JsonOf v) s a
  | Set_si_status v => Build_SalesInvoice n c d du it v a
  | Set_si_amountPaid v => Build_SalesInvoice n c d du it s v
  end.

Inductive QuotationField : Type :=
| Set_quo_quotationNumber (v : string)
| Set_quo_customerId (v : string)
| Set_quo_quoteDate (v : string)
| Set_quo_expiryDate (v : string)
| Set_quo_items (v : list InvoiceItem)
| Set_quo_status (v : string).

Definition assign_quotation (e : QuotationField) (q : Quotation) : Quotation :=
  let '{| quo_quotationNumber := n; quo_customerId := c; quo_quoteDate := d;
          quo_expiryDate := ex; quo_items := it; quo_status := s |} := q in
  match e with
  | Set_quo_quotationNumber v => Build_Quotation v c d ex it s
  | Set_quo_customerId v => Build_Quotation n v d ex it s
  | Set_quo_quoteDate v => Build_Quotation n c v ex it s
  | Set_quo_expiryDate v => Build_Quotation n c d v it s
  | Set_quo_items v => Build_Quotation n c d ex (JsonOf v) s
  | Set_quo_status v => Build_Quotation n c d ex it v
  end.

Inductive PurchaseInvoiceField : Type :=
| Set_pi_invoiceNumber (v : string)
| Set_pi_supplierId (v : string)
| Set_pi_purchaseDate (v : string)
| Set_pi_items (v : list InvoiceItem)
| Set_pi_status (v : string)
| Set_pi_amountPaid (v : option Z).

Definition assign_purchase_invoice (e : PurchaseInvoiceField) (i : PurchaseInvoice)
  : PurchaseInvoice :=
  let '{| pi_invoiceNumber := n; pi_supplierId := su; pi_purchaseDate := d;
          pi_items := it; pi_status := s; pi_amountPaid := a |} := i in
  match e with
  | Set_pi_invoiceNumber v => Build_PurchaseInvoice v su d it s a
  | Set_pi_supplierId v => Build_PurchaseInvoice n v d it s a
  | Set_pi_purchaseDate v => Build_PurchaseInvoice n su v it s a
  | Set_pi_items v => Build_PurchaseInvoice n su d (JsonOf v) s a
  | Set_pi_status v => Build_PurchaseInvoice n su d it v a
  | Set_pi_amountPaid v => Build_PurchaseInvoice n su d it s v
  end.

Inductive StockAdjustmentField : Type :=
| Set_sa_productId (v : string)
| Set_sa_date (v : string)
| Set_sa_quantityChange (v : Z)
| Set_sa_reason (v : string).

Definition assign_stock_adjustment (e : StockAdjustmentField) (a : StockAdjustment)
  : StockAdjustment :=
  let '{| sa_productId := p; sa_date := d; sa_quantityChange := q;
          sa_reason := r |} := a in
  match e with
  | Set_sa_productId v => Build_StockAdjustment v d q r
  | Set_sa_date v => Build_StockAdjustment p v q r
  | Set_sa_quantityChange v => Build_StockAdjustment p d v r
  | Set_sa_reason v => Build_StockAdjustment p d q v
  end.

(** The seven instances of [createStore]. *)

Definition productsBase : Store Product ProductField :=
  {| tableName := "products"; rows := products; with_rows := with_products;
     assign := assign_product |}.

Definition customersBase : Store Customer CustomerField :=
  {| tableName := "customers"; rows := customers; with_rows := with_customers;
     assign := assign_customer |}.

Definition suppliersBase : Store Supplier SupplierField :=
  {| tableName := "suppliers"; rows := suppliers; with_rows := with_suppliers;
     assign := assign_supplier |}.

Definition quotationStore : Store Quotation QuotationField :=
  {| tableName := "quotations"; rows := quotations; with_rows := with_quotations;
     assign := assign_quotation |}.

Definition stockAdjustmentStore : Store StockAdjustment StockAdjustmentField :=
  {| tableName := "stock_adjustments"; rows := stock_adjustments;
     with_rows := with_stock_adjustments; assign := assign_stock_adjustment |}.

Definition salesInvoicesBase : Store SalesInvoice SalesInvoiceField :=
  {| tableName := "sales_invoices"; rows := sales_invoices;
     with_rows := with_sales_invoices; assign := assign_sales_invoice |}.

Definition purchaseInvoicesBase : Store PurchaseInvoice PurchaseInvoiceField :=
  {| tableName := "purchase_invoices"; rows := purchase_invoices;
     with_rows := with_purchase_invoices; assign := assign_purchase_invoice |}.

(** ** productStore *)

Definition tombstone (id name : string) (item : InvoiceItem) : InvoiceItem :=
  if bool_decide (item_productId item = Some id) then
    {| item_productId := None;
       item_customItemName := Some ("[Deleted] " +:+ name);
       item_hsnCode := item_hsnCode item;
       item_quantity := item_quantity item;
       item_rate := item_rate item;
       item_taxRate := item_taxRate item |}
  else item.

Definition references (id : string) (items : list InvoiceItem) : bool :=
  existsb (λ item, bool_decide (item_productId item = Some id)) items.

Section updateLinkedItems.
Context {R F : Type} (S : Store R F).
Context (items_of : R → JsonText (list InvoiceItem)).
Context (Set_items : list InvoiceItem → F).
Context (id name : string).

(** The [while (selectStmt.step())] loop: rows whose items do not parse
    are skipped, rows with a rewritten item are queued. *)
Definition toUpdate (t : gmap string R) : list (string * list InvoiceItem) :=
  omap (λ kv : string * R,
          match items_of kv.2 with
          | NotJson _ => None
          | JsonOf items =>
              let wasModified := references id items in
              let newItems := map (tombstone id name) items in
              if wasModified then Some (kv.1, newItems) else None
          end)
       (map_to_list t).

(** [toUpdate.forEach(doc => updateStmt.run([doc.items, doc.id]))] *)
Definition updateLinkedItems (db : Db) : Db :=
  with_rows S
    (λ t, foldl (λ acc doc, alter (assign S (Set_items doc.2)) doc.1 acc)
                t (toUpdate t))
    db.
End updateLinkedItems.

Module productStore.
(** [SELECT stock FROM products WHERE id = ?], bound and stepped once:
    undefined ([None]) when there is no row, else the column, which may
    be NULL. *)
Definition select_stock (productId : string) : Tx (option (option Z)) :=
  λ db, inr (product_stock <$>
               step_by_id (products db) (bind productId prepare) [], db).

Definition adjustStock (now : N) (iso : string)
    (productId : string) (quantity : Z) (reason : string) (db : Db)
  : Outcome (option Product) * Db :=
  let body : Tx unit :=
    currentStock ← select_stock productId;
    match currentStock with
    | None => tx_throw (ProductNotFound productId)
    | Some currentStock =>
        if (quantity <? 0) && (to_number currentStock + quantity <? 0) then
          tx_throw (StockCannotBeNegative currentStock quantity)
        else
          tx_try (λ db,
            match sql_insert ("sa-" +:+ pretty now)
                    {| sa_productId := productId; sa_date := iso;
                       sa_quantityChange := quantity; sa_reason := reason |}
                    (stock_adjustments db) with
            | inl e => inl e
            | inr t => inr (with_stock_adjustments (λ _, t) db)
            end) ;;
          tx_run (with_products (stock_add quantity productId))
    end in
  match transaction body db with
  | (inl e, db') => (Thrown e, db')
  | (inr _, db') => (Returned (createStore.getById productsBase productId db'), db')
  end.

Definition delete (id : string) (db : Db) : Outcome bool * Db :=
  match createStore.getById productsBase id db with
  | None => (Returned false, db)
  | Some productToDelete =>
      let name := product_name productToDelete in
      let body : Tx unit :=
        tx_run (updateLinkedItems salesInvoicesBase si_items Set_si_items id name) ;;
        tx_run (updateLinkedItems purchaseInvoicesBase pi_items Set_pi_items id name) ;;
        tx_run (updateLinkedItems quotationStore quo_items Set_quo_items id name) ;;
        tx_run (with_stock_adjustments
                  (filter (λ kv : string * StockAdjustment, sa_productId kv.2 ≠ id))) ;;
        tx_run (with_products (sql_delete id)) in
      match transaction body db with
      | (inl _, db') => (Returned false, db')
      | (inr _, db') => (Returned true, db')
      end
  end.
End productStore.

(** ** customerStore and supplierStore *)

Module customerStore.
Definition delete (id : string) (db : Db) : Outcome bool * Db :=
  let salesStmt := prepare in
  if step_exists si_customerId (sales_invoices db) salesStmt [id] then
    (Returned false, db)
  else
    let quoteStmt := prepare in
    if step_exists quo_customerId (quotations db) quoteStmt [id] then
      (Returned false, db)
    else
      (Returned true, with_customers (sql_delete id) db).
End customerStore.

Module supplierStore.
Definition delete (id : string) (db : Db) : Outcome bool * Db :=
  let purchaseStmt := prepare in
  if step_exists pi_supplierId (purchase_invoices db) purchaseStmt [id] then
    (Returned false, db)
  else
    (Returned true, with_suppliers (sql_delete id) db).
End supplierStore.

(** ** salesInvoiceStore and purchaseInvoiceStore *)

(** [items.forEach(item => { if (item.productId) UPDATE products ... })] *)
Definition forEach_stock
    (stmt : Z → string → gmap string Product → gmap string Product)
    (items : list InvoiceItem) (ps : gmap string Product) : gmap string Product :=
  foldl (λ acc item,
           match truthy_string (item_productId item) with
           | Some productId => stmt (item_quantity item) productId acc
           | None => acc
           end)
        ps items.

(** [SalesInvoiceData]: the invoice as the caller hands it over, its items
    still an array. *)
Record SalesInvoiceData : Type := {
  data_invoiceNumber : string;
  data_customerId : string;
  data_invoiceDate : string;
  data_dueDate : string;
  data_items : list InvoiceItem;
  data_status : string;
  data_amountPaid : option Z
}.

Module salesInvoiceStore.
(** The row bound by [INSERT INTO sales_invoices VALUES (?,?,?,?,?,?,?,?)]. *)
Definition row_of (data : SalesInvoiceData) : SalesInvoice :=
  {| si_invoiceNumber := data_invoiceNumber data;
     si_customerId := data_customerId data;
     si_invoiceDate := data_invoiceDate data;
     si_dueDate := data_dueDate data;
     si_items := JsonOf (data_items data);
     si_status := data_status data;
     si_amountPaid := Some (default 0 (data_amountPaid data)) |}.

(** [data.items] of a partial record. *)
Definition partial_items (data : list SalesInvoiceField) : option (list InvoiceItem) :=
  head (omap (λ e, match e with Set_si_items v => Some v | _ => None end) data).

Definition update_row (data : list SalesInvoiceField) (id : string) : Tx unit :=
  tx_try (λ db,
    match sql_update_set assign_sales_invoice data id (sales_invoices db) with
    | inl e => inl e
    | inr t => inr (with_sales_invoices (λ _, t) db)
    end).

Definition create (now : N) (data : SalesInvoiceData) (db : Db)
  : Outcome (string * SalesInvoiceData) * Db :=
  let id := "si-" +:+ pretty now in
  let body : Tx unit :=
    tx_try (λ db,
      match sql_insert id (row_of data) (sales_invoices db) with
      | inl e => inl e
      | inr t => inr (with_sales_invoices (λ _, t) db)
      end) ;;
    tx_run (with_products (forEach_stock stock_sub (data_items data))) in
  match transaction body db with
  | (inl e, db') => (Thrown e, db')
  | (inr _, db') => (Returned (id, data), db')
  end.

Definition update (id : string) (data : list SalesInvoiceField) (db : Db)
  : Outcome (option SalesInvoice) * Db :=
  match createStore.getById salesInvoicesBase id db with
  | None => (Returned None, db)
  | Some oldInvoice =>
      let body : Tx unit :=
        oldItems ← as_array (si_items oldInvoice);
        tx_run (with_products (forEach_stock stock_add oldItems)) ;;
        let newItems := default oldItems (partial_items data) in
        tx_run (with_products (forEach_stock stock_sub newItems)) ;;
        update_row data id in
      match transaction body db with
      | (inl e, db') => (Thrown e, db')
      | (inr _, db') =>
          (Returned (createStore.getById salesInvoicesBase id db'), db')
      end
  end.

Definition delete (id : string) (db : Db) : Outcome bool * Db :=
  match createStore.getById salesInvoicesBase id db with
  | None => (Returned false, db)
  | Some invoice =>
      let body : Tx unit :=
        items ← as_array (si_items invoice);
        tx_run (with_products (forEach_stock stock_add items)) ;;
        tx_run (with_sales_invoices (sql_delete id)) in
      match transaction body db with
      | (inl _, db') => (Returned false, db')
      | (inr _, db') => (Returned true, db')
      end
  end.
End salesInvoiceStore.

Module purchaseInvoiceStore.
Definition partial_items (data : list PurchaseInvoiceField) : option (list InvoiceItem) :=
  head (omap (λ e, match e with Set_pi_items v => Some v | _ => None end) data).

Definition update_row (data : list PurchaseInvoiceField) (id : string) : Tx unit :=
  tx_try (λ db,
    match sql_update_set assign_purchase_invoice data id (purchase_invoices db) with
    | inl e => inl e
    | inr t => inr (with_purchase_invoices (λ _, t) db)
    end).

Definition update (id : string) (data : list PurchaseInvoiceField) (db : Db)
  : Outcome (option PurchaseInvoice) * Db :=
  match createStore.getById purchaseInvoicesBase id db with
  | None => (Returned None, db)
  | Some oldInvoice =>
      let body : Tx unit :=
        oldItems ← as_array (pi_items oldInvoice);
        tx_run (with_products (forEach_stock stock_sub oldItems)) ;;
        let newItems := default oldItems (partial_items data) in
        tx_run (with_products (forEach_stock stock_add newItems)) ;;
        update_row data id in
      match transaction body db with
      | (inl e, db') => (Thrown e, db')
      | (inr _, db') =>
          (Returned (createStore.getById purchaseInvoicesBase id db'), db')
      end
  end.
End purchaseInvoiceStore.

(** ** settingsStore *)

Definition address_json (l1 l2 d s c p : string) : json :=
  JObj [("line1", JStr l1); ("line2", JStr l2); ("district", JStr d);
        ("state", JStr s); ("country", JStr c); ("pincode", JStr p)].

Definition DUMMY_COMPANY_DETAILS : json :=
  JObj [("name", JStr "LRGP");
        ("address", address_json "456 Business Avenue" "Industrial Area"
                      "Bangalore Urban" "Karnataka" "India" "560098");
        ("email", JStr "billing@zenithinc.com");
        ("phone", JStr "+91 98765 43210");
        ("gstin", JStr "29AAAAA0000A1Z5");
        ("logoUrl", JStr "https://www.lrgp.in/images/logo.png")].

Definition DUMMY_INVOICE_SETTINGS : json :=
  JObj [("accentColor", JStr "#4f46e5");
        ("notes", JStr "Thank you for your business!");
        ("terms", JStr "Payment is due within 30 days. Late payments are subject to a 2% monthly interest charge.");
        ("bankDetails",
          JObj [("bankName", JStr "Bank of India");
                ("accountNumber", JStr "826720110000378");
                ("ifscCode", JStr "BKID0008267");
                ("branch", JStr "Dindigul")]);
        ("invoiceNumberPrefix", JStr "INV-");
        ("nextInvoiceNumber", JNum 5);
        ("quotationNumberPrefix", JStr "QUO-");
        ("nextQuotationNumber", JNum 4)].

Record AppSettings : Type := {
  companyDetails : json;
  invoiceSettings : json
}.

Module settingsStore.
(** [row && row.value ? JSON.parse(row.value) : dflt] inside
    [try { ... } catch (e) { ... = dflt }]. *)
Definition parse_or (dflt : json) (row : option (JsonText json)) : json :=
  match row with
  | Some (JsonOf v) => v
  | Some (NotJson _) => dflt
  | None => dflt
  end.

Definition get (db : Db) : Outcome AppSettings * Db :=
  let companyRow := settings db !! "companyDetails" in
  let invoiceRow := settings db !! "invoiceSettings" in
  let companyDetails := parse_or DUMMY_COMPANY_DETAILS companyRow in
  let invoiceSettings := parse_or DUMMY_INVOICE_SETTINGS invoiceRow in
  let body : Tx unit :=
    tx_run (with_settings (insert "companyDetails" (JsonOf companyDetails))) ;;
    tx_run (with_settings (insert "invoiceSettings" (JsonOf invoiceSettings))) in
  match transaction body db with
  | (_, db') =>
      (Returned {| companyDetails := companyDetails;
                   invoiceSettings := invoiceSettings |}, db')
  end.
End settingsStore.

(** ** Definitions used to state the properties *)

Definition adjustment_row (productId iso : string) (quantity : Z) (reason : string)
  : StockAdjustment :=
  {| sa_productId := productId; sa_date := iso;
     sa_quantityChange := quantity; sa_reason := reason |}.

(** The quantity an items array bills to one product: the sum over the
    items whose [productId] is that product (and passes [if (item.productId)]). *)
Definition billed (productId : string) (items : list InvoiceItem) : Z :=
  foldr (λ item acc,
           if bool_decide (truthy_string (item_productId item) = Some productId)
           then item_quantity item + acc else acc)
        0 items.


(** The stock column of a product, as [getById] shows it. *)
Definition stock_of (productId : string) (db : Db) : option (option Z) :=
  product_stock <$> products db !! productId.

(** What the [items] column of a row becomes. *)
Definition tombstone_items (id name : string) (c : JsonText (list InvoiceItem))
  : JsonText (list InvoiceItem) :=
  match c with
  | JsonOf items => JsonOf (map (tombstone id name) items)
  | NotJson raw => NotJson raw
  end.

Definition set_si_items (c : JsonText (list InvoiceItem)) (i : SalesInvoice) : SalesInvoice :=
  {| si_invoiceNumber := si_invoiceNumber i; si_customerId := si_customerId i;
     si_invoiceDate := si_invoiceDate i; si_dueDate := si_dueDate i;
     si_items := c; si_status := si_status i; si_amountPaid := si_amountPaid i |}.

Definition set_pi_items (c : JsonText (list InvoiceItem)) (i : PurchaseInvoice)
  : PurchaseInvoice :=
  {| pi_invoiceNumber := pi_invoiceNumber i; pi_supplierId := pi_supplierId i;
     pi_purchaseDate := pi_purchaseDate i; pi_items := c;
     pi_status := pi_status i; pi_amountPaid := pi_amountPaid i |}.

Definition set_quo_items (c : JsonText (list InvoiceItem)) (q : Quotation) : Quotation :=
  {| quo_quotationNumber := quo_quotationNumber q; quo_customerId := quo_customerId q;
     quo_quoteDate := quo_quoteDate q; quo_expiryDate := quo_expiryDate q;
     quo_items := c; quo_status := quo_status q |}.

(** What [updateLinkedItems] makes of one row. *)
Definition rewrite_linked {R F : Type} (S : Store R F)
    (items_of : R → JsonText (list InvoiceItem))
    (Set_items : list InvoiceItem → F) (id name : string) (row : R) : R :=
  match items_of row with
  | JsonOf items => assign S (Set_items (map (tombstone id name) items)) row
  | NotJson _ => row
  end.

(** ** Sample data for the closed examples *)

Definition empty_db : Db :=
  {| settings := ∅; products := ∅; customers := ∅; suppliers := ∅;
     sales_invoices := ∅; quotations := ∅; purchase_invoices := ∅;
     stock_adjustments := ∅ |}.

(** [DUMMY_PRODUCTS[0]] of [src/constants.ts]. *)
Definition wireless_mouse : Product :=
  {| product_name := "Wireless Mouse"; product_sku := Some "WM-001";
     product_hsnCode := Some "847160"; product_category := Some "Electronics";
     product_salePrice := 2499; product_purchasePrice := 1200;
     product_taxRate := Some 18; product_stock := Some 150;
     product_reorderPoint := Some 20; product_isService := false |}.

Definition mouse_db : Db := with_products (insert "p1" wireless_mouse) empty_db.

Definition mouse_item (quantity : Z) : InvoiceItem :=
  {| item_productId := Some "p1"; item_customItemName := None;
     item_hsnCode := Some "847160"; item_quantity := quantity;
     item_rate := 2499; item_taxRate := 18 |}.

Definition mouse_invoice (quantity : Z) : SalesInvoiceData :=
  {| data_invoiceNumber := "INV-5"; data_customerId := "c1";
     data_invoiceDate := "2023-11-14"; data_dueDate := "2023-12-14";
     data_items := [mouse_item quantity]; data_status := "Unpaid";
     data_amountPaid := None |}.

(** The store after selling ten mice on invoice [si-1700000000000]. *)
Definition sold_db : Db :=
  (salesInvoiceStore.create 1700000000000 (mouse_invoice 10) mouse_db).2.

(** A purchase of twenty mice, booked as [pi-1700000000001]. *)
Definition purchased_db : Db :=
  with_purchase_invoices
    (insert "pi-1700000000001"
       {| pi_invoiceNumber := "PINV-9"; pi_supplierId := "s1";
          pi_purchaseDate := "2023-11-15"; pi_items := JsonOf [mouse_item 20];
          pi_status := "Unpaid"; pi_amountPaid := Some 0 |})
    sold_db.

(** [DUMMY_CUSTOMERS[0]] and [DUMMY_SUPPLIERS[0]] of [src/constants.ts]. *)
Definition tech_solutions : Customer :=
  let address :=
    {| line1 := "123 Tech Park"; line2 := "Silicon Valley";
       district := "Bangalore Urban"; state := "Karnataka";
       country := "India"; pincode := "560001" |} in
  {| customer_name := "Tech Solutions Pvt. Ltd.";
     customer_email := Some "contact@techsolutions.com";
     customer_phone := Some "9876543210";
     customer_billingAddress := JsonOf address;
     customer_shippingAddress := JsonOf address;
     customer_gstin := Some "29ABCDE1234F1Z5" |}.

Definition electro_supplies : Supplier :=
  {| supplier_name := "Electro Supplies India";
     supplier_email := Some "sales@electrosupplies.in";
     supplier_phone := Some "9123456780";
     supplier_address :=
       JsonOf {| line1 := "101 Component Rd"; line2 := "";
                 district := "Pune"; state := "Maharashtra";
                 country := "India"; pincode := "411001" |};
     supplier_gstin := Some "27RSTUV3456W1Z2" |}.

(** Customer [c1] with sales invoice [si-1700000000000] on it, supplier
    [s1] with purchase invoice [pi-1700000000001] on it. *)
Definition linked_db : Db :=
  with_suppliers (insert "s1" electro_supplies)
    (with_customers (insert "c1" tech_solutions) purchased_db).

(** ** The rest of the stores

    [createStore]'s [getAll] and [create], the purchase invoice store's
    [create] and [delete], [settingsStore.update], and the seeding of a new
    database. *)

(** [SELECT * FROM t], row by row.  The rows come in no particular
    order here; SQLite lists them by rowid. *)
Definition createStore_getAll {R F : Type} (S : Store R F) (db : Db) : list (string * R) :=
  map_to_list (rows S db).

(** [create]: [encode] is what the [fields.map] puts into the INSERT for a
    record of type [TData] ([JSON.stringify] on the JSON-bearing fields). *)
Definition createStore_create {R F D : Type} (S : Store R F) (encode : D → R)
    (now : N) (data : D) (db : Db) : Outcome (string * D) * Db :=
  let id := String.substring 0 2 (tableName S) +:+ "-" +:+ pretty now in
  match sql_insert id (encode data) (rows S db) with
  | inl e => (Thrown e, db)
  | inr t => (Returned (id, data), with_rows S (λ _, t) db)
  end.

Record CustomerData : Type := {
  cdata_name : string;
  cdata_email : option string;
  cdata_phone : option string;
  cdata_billingAddress : Address;
  cdata_shippingAddress : Address;
  cdata_gstin : option string
}.

Definition encode_customer (data : CustomerData) : Customer :=
  {| customer_name := cdata_name data; customer_email := cdata_email data;
     customer_phone := cdata_phone data;
     customer_billingAddress := JsonOf (cdata_billingAddress data);
     customer_shippingAddress := JsonOf (cdata_shippingAddress data);
     customer_gstin := cdata_gstin data |}.

Record SupplierData : Type := {
  sdata_name : string;
  sdata_email : option string;
  sdata_phone : option string;
  sdata_address : Address;
  sdata_gstin : option string
}.

Definition encode_supplier (data : SupplierData) : Supplier :=
  {| supplier_name := sdata_name data; supplier_email := sdata_email data;
     supplier_phone := sdata_phone data;
     supplier_address := JsonOf (sdata_address data);
     supplier_gstin := sdata_gstin data |}.

Record QuotationData : Type := {
  qdata_quotationNumber : string;
  qdata_customerId : string;
  qdata_quoteDate : string;
  qdata_expiryDate : string;
  qdata_items : list InvoiceItem;
  qdata_status : string
}.

Definition encode_quotation (data : QuotationData) : Quotation :=
  {| quo_quotationNumber := qdata_quotationNumber data;
     quo_customerId := qdata_customerId data;
     quo_quoteDate := qdata_quoteDate data;
     quo_expiryDate := qdata_expiryDate data;
     quo_items := JsonOf (qdata_items data);
     quo_status := qdata_status data |}.

Record PurchaseInvoiceData : Type := {
  pdata_invoiceNumber : string;
  pdata_supplierId : string;
  pdata_purchaseDate : string;
  pdata_items : list InvoiceItem;
  pdata_status : string;
  pdata_amountPaid : option Z
}.

(** The row bound by [INSERT INTO purchase_invoices VALUES (?,?,?,?,?,?,?)]. *)
Definition purchase_row_of (data : PurchaseInvoiceData) : PurchaseInvoice :=
  {| pi_invoiceNumber := pdata_invoiceNumber data;
     pi_supplierId := pdata_supplierId data;
     pi_purchaseDate := pdata_purchaseDate data;
     pi_items := JsonOf (pdata_items data);
     pi_status := pdata_status data;
     pi_amountPaid := Some (default 0 (pdata_amountPaid data)) |}.

Definition purchaseInvoiceStore_create (now : N) (data : PurchaseInvoiceData) (db : Db)
  : Outcome (string * PurchaseInvoiceData) * Db :=
  let id := "pi-" +:+ pretty now in
  let body : Tx unit :=
    tx_try (λ db,
      match sql_insert id (purchase_row_of data) (purchase_invoices db) with
      | inl e => inl e
      | inr t => inr (with_purchase_invoices (λ _, t) db)
      end) ;;
    tx_run (with_products (forEach_stock stock_add (pdata_items data))) in
  match transaction body db with
  | (inl e, db') => (Thrown e, db')
  | (inr _, db') => (Returned (id, data), db')
  end.

Definition purchaseInvoiceStore_delete (id : string) (db : Db) : Outcome bool * Db :=
  match createStore.getById purchaseInvoicesBase id db with
  | None => (Returned false, db)
  | Some invoice =>
      let body : Tx unit :=
        items ← as_array (pi_items invoice);
        tx_run (with_products (forEach_stock stock_sub items)) ;;
        tx_run (with_purchase_invoices (sql_delete id)) in
      match transaction body db with
      | (inl _, db') => (Returned false, db')
      | (inr _, db') => (Returned true, db')
      end
  end.

(** *** Object spread

    [{ ...a, ...b }] on JSON values.  An object contributes its members, an
    array its elements and a string its characters under their indices,
    null, booleans and numbers nothing.  Defining a member that is already
    there replaces its value in place; a new one goes to the end.  (The
    order in which JavaScript enumerates integer-like keys is not kept;
    nothing below depends on member order.) *)

Fixpoint set_member (k : string) (v : json) (ms : list (string * json))
  : list (string * json) :=
  match ms with
  | [] => [(k, v)]
  | (k', v') :: rest =>
      if bool_decide (k' = k) then (k, v) :: rest
      else (k', v') :: set_member k v rest
  end.

Definition own_entries (v : json) : list (string * json) :=
  match v with
  | JObj members => members
  | JArr elems => imap (λ i x, (pretty i, x)) elems
  | JStr s =>
      imap (λ i c, (pretty i, JStr (String c EmptyString))) (String.list_ascii_of_string s)
  | JNull | JBool _ | JNum _ => []
  end.

Definition spread (target : list (string * json)) (source : json)
  : list (string * json) :=
  foldl (λ acc kv, set_member kv.1 kv.2 acc) target (own_entries source).

(** [{ ...a, ...b }] *)
Definition object_spread (a b : json) : json := JObj (spread (spread [] a) b).

(** [x || {}] for an optional section of the partial settings. *)
Definition or_empty_object (x : option json) : json :=
  match x with
  | None | Some JNull | Some (JBool false) | Some (JNum 0) | Some (JStr "") => JObj []
  | Some v => v
  end.

(** [Partial<AppSettings>] *)
Record PartialAppSettings : Type := {
  partial_companyDetails : option json;
  partial_invoiceSettings : option json
}.

Definition settingsStore_update (data : PartialAppSettings) (db : Db)
  : Outcome AppSettings * Db :=
  match settingsStore.get db with
  | (Thrown e, db1) => (Thrown e, db1)
  | (Returned current, db1) =>
      let newSettings :=
        {| companyDetails :=
             object_spread (companyDetails current)
               (or_empty_object (partial_companyDetails data));
           invoiceSettings :=
             object_spread (invoiceSettings current)
               (or_empty_object (partial_invoiceSettings data)) |} in
      (Returned newSettings,
       with_settings (insert "invoiceSettings" (JsonOf (invoiceSettings newSettings)))
         (with_settings (insert "companyDetails" (JsonOf (companyDetails newSettings)))
            db1))
  end.

(** *** A new database *)

(** [new SQL.Database()] after [createTables]: eight empty tables. *)
Definition createTables : Db :=
  {| settings := ∅; products := ∅; customers := ∅; suppliers := ∅;
     sales_invoices := ∅; quotations := ∅; purchase_invoices := ∅;
     stock_adjustments := ∅ |}.

(** [seedDatabase]: the two settings rows (the inserts of the dummy
    records are commented out in the source); a failure is logged and
    rolled back, not rethrown. *)
Definition seedDatabase (db : Db) : Db :=
  let insert_setting (key : string) (value : json) : Tx unit :=
    tx_try (λ db,
      match sql_insert key (JsonOf value) (settings db) with
      | inl e => inl e
      | inr t => inr (with_settings (λ _, t) db)
      end) in
  let body : Tx unit :=
    insert_setting "companyDetails" DUMMY_COMPANY_DETAILS ;;
    insert_setting "invoiceSettings" DUMMY_INVOICE_SETTINGS in
  (transaction body db).2.

(** ** Callers in the pages

    The checks the forms run before they call the store
    ([src/pages/Sales.tsx], [src/pages/Inventory.tsx]).  [products] is the
    list the page got from [getProducts]. *)

(** [products.find(p => p.id === id)] *)
Definition find_product (id : string) (products : list (string * Product))
  : option Product :=
  (λ found : nat * (string * Product), found.2.2)
    <$> list_find (λ kv : string * Product, kv.1 = id) products.

(** A line of the sales form after [parseFloat] ([numericItems]).  The
    product id is the empty string while nothing is chosen and ['custom']
    for a custom item. *)
Record NumericItem : Type := {
  form_productId : string;
  form_customItemName : string;
  form_hsnCode : string;
  form_quantity : Z;
  form_rate : Z;
  form_taxRate : Z
}.

(** [(record as SalesInvoice)?.items?.find(i => i.productId === id)?.quantity || 0] *)
Definition original_quantity (record : option (list InvoiceItem)) (id : string) : Z :=
  match record with
  | None => 0
  | Some items =>
      match list_find (λ i : InvoiceItem, item_productId i = Some id) items with
      | Some found => item_quantity found.2
      | None => 0
      end
  end.

(** The body of the [for] loop of [handleSubmit] for one line: the product
    and what is available of it when the line asks for more. *)
Definition low_stock_line (products : list (string * Product))
    (record : option (list InvoiceItem)) (item : NumericItem) : option (Product * Z) :=
  if bool_decide (form_productId item ≠ "")
     && bool_decide (form_productId item ≠ "custom")
     && (0 <? form_quantity item)
  then
    match find_product (form_productId item) products with
    | None => None
    | Some product =>
        if product_isService product then None
        else
          let originalQuantity := original_quantity record (form_productId item) in
          let totalAvailableForSale := to_number (product_stock product) + originalQuantity in
          if totalAvailableForSale <? form_quantity item
          then Some (product, totalAvailableForSale)
          else None
    end
  else None.

(** The loop: the first line that asks for too much stops the submission. *)
Definition stock_check (products : list (string * Product))
    (record : option (list InvoiceItem)) (numericItems : list NumericItem)
  : option (Product * Z) :=
  foldr (λ item rest,
           match low_stock_line products record item with
           | Some low => Some low
           | None => rest
           end)
        None numericItems.

(** [finalItems]: the lines that are sent to the store. *)
Definition final_items (numericItems : list NumericItem) : list InvoiceItem :=
  (λ item,
     let custom := bool_decide (form_productId item = "custom") in
     {| item_productId := if custom then None else Some (form_productId item);
        item_customItemName := if custom then Some (form_customItemName item) else None;
        item_hsnCode := Some (form_hsnCode item);
        item_quantity := form_quantity item;
        item_rate := form_rate item;
        item_taxRate := form_taxRate item |})
  <$> filter (λ item,
                (form_productId item ≠ "" ∧ 0 < form_quantity item)
                ∨ (form_productId item = "custom" ∧ form_customItemName item ≠ ""))
             numericItems.

(** [StockAdjustmentForm.handleSubmit] up to the call of the store: true
    when [adjustProductStock] is called. *)
Definition adjustment_form_check (products : list (string * Product))
    (productId : string) (numericQuantity : Z) : bool :=
  if bool_decide (productId = "") || (numericQuantity =? 0) then false
  else if numericQuantity <? 0 then
    match find_product productId products with
    | Some product =>
        match product_stock product with
        | Some stock => negb (stock + numericQuantity <? 0)
        | None => true
        end
    | None => true
    end
  else true.

(** [docs.filter(inv => inv.items.some(item => item.productId === id)).length]
    of the delete dialog ([handleOpenDeleteDialog]); items that did not
    parse have no [some], and the handler throws ([None]). *)
Definition linked_documents {R : Type} (items_of : R → JsonText (list InvoiceItem))
    (id : string) (docs : list (string * R)) : option nat :=
  foldr (λ doc rest,
           match items_of doc.2 with
           | NotJson _ => None
           | JsonOf items =>
               match rest with
               | Some n => Some (if references id items then S n else n)
               | None => None
               end
           end)
        (Some 0%nat) docs.

(** ** Definitions used to state further properties *)

(** A store whose [with_rows] writes the table [rows] reads. *)
Definition reads_what_it_writes {R F : Type} (S : Store R F) : Prop :=
  ∀ f db, rows S (with_rows S f db) = f (rows S db).

(** The sum of a quantity over the rows of a table. *)
Definition table_sum {R : Type} (w : R → Z) (t : gmap string R) : Z :=
  map_fold (λ _ row acc, w row + acc) 0 t.

Definition items_billed (productId : string) (c : JsonText (list InvoiceItem)) : Z :=
  match c with
  | JsonOf items => billed productId items
  | NotJson _ => 0
  end.

(** Quantity of a product on all sales invoices, on all purchase invoices,
    and in the adjustment log. *)
Definition sold (productId : string) (db : Db) : Z :=
  table_sum (λ row, items_billed productId (si_items row)) (sales_invoices db).

Definition purchased (productId : string) (db : Db) : Z :=
  table_sum (λ row, items_billed productId (pi_items row)) (purchase_invoices db).

Definition adjusted (productId : string) (db : Db) : Z :=
  table_sum (λ a, if bool_decide (sa_productId a = productId)
                  then sa_quantityChange a else 0)
            (stock_adjustments db).

(** The stock a product would have with no document booked on it: its
    stock, less adjustments and purchases, plus sales. *)
Definition opening_stock (productId : string) (db : Db) : option Z :=
  match products db !! productId with
  | Some p =>
      match product_stock p with
      | Some s => Some (s - adjusted productId db - purchased productId db
                        + sold productId db)
      | None => None
      end
  | None => None
  end.




(** First member of that name among the members an object ends up with. *)
Fixpoint assoc (k : string) (ms : list (string * json)) : option json :=
  match ms with
  | [] => None
  | (k', v) :: rest => if bool_decide (k' = k) then Some v else assoc k rest
  end.

(** [v[k]] for an own member [k] of a JSON value. *)
Definition member (k : string) (v : json) : option json := assoc k (spread [] v).

(** The columns of an item that enter a document's totals. *)
Definition amounts (item : InvoiceItem) : Z * Z * Z :=
  (item_quantity item, item_rate item, item_taxRate item).

(** A purchase of mice, as the purchase form hands it over. *)
Definition mouse_purchase (quantity : Z) : PurchaseInvoiceData :=
  {| pdata_invoiceNumber := "PINV-9"; pdata_supplierId := "s1";
     pdata_purchaseDate := "2023-11-15"; pdata_items := [mouse_item quantity];
     pdata_status := "Unpaid"; pdata_amountPaid := None |}.

(** Quantity, rate and tax rate of a document, line by line; nothing when
    the stored items do not parse. *)
Definition document_amounts (c : JsonText (list InvoiceItem)) : option (list (Z * Z * Z)) :=
  match c with
  | JsonOf items => Some (amounts <$> items)
  | NotJson _ => None
  end.

(** [DUMMY_PRODUCTS[1]] of [src/constants.ts], and the store after selling
    ten mice with the keyboard in stock as well. *)
Definition mechanical_keyboard : Product :=
  {| product_name := "Mechanical Keyboard"; product_sku := Some "MK-002";
     product_hsnCode := Some "847160"; product_category := Some "Electronics";
     product_salePrice := 7499; product_purchasePrice := 4500;
     product_taxRate := Some 18; product_stock := Some 80;
     product_reorderPoint := Some 15; product_isService := false |}.

Definition two_product_db : Db :=
  with_products (insert "p2" mechanical_keyboard) sold_db.

(** A form line for mice and the invoice the form builds from it. *)
Definition mouse_line (quantity : Z) : NumericItem :=
  {| form_productId := "p1"; form_customItemName := ""; form_hsnCode := "847160";
     form_quantity := quantity; form_rate := 2499; form_taxRate := 18 |}.

Definition form_invoice (numericItems : list NumericItem) : SalesInvoiceData :=
  {| data_invoiceNumber := "INV-00005"; data_customerId := "c1";
     data_invoiceDate := "2023-11-14"; data_dueDate := "2023-12-14";
     data_items := final_items numericItems; data_status := "Unpaid";
     data_amountPaid := Some 0 |}.

(** * Properties *)

(** ** Helper lemmas *)

Lemma alter_as_insert {R : Type} (f : R → R) (k : string) (m : gmap string R) (r : R) :
  m !! k = Some r → alter f k m = <[k := f r]> m.
Proof.
  intros Hk. apply map_eq. intros j.
  rewrite lookup_alter, lookup_insert.
  destruct (decide (k = j)) as [->|]; [by rewrite Hk | done].
Qed.


(** ** adjustStock *)



(** ** Stock effect of an items array *)

Lemma set_stock_plus_plus (a b : Z) (p : Product) :
  set_stock (λ s, sql_plus s b) (set_stock (λ s, sql_plus s a) p)
  = set_stock (λ s, sql_plus s (a + b)) p.
Proof.
  destruct p as [? ? ? ? ? ? ? [s|] ? ?]; unfold set_stock; simpl.
  - f_equal. apply (f_equal Some). lia.
  - done.
Qed.

Lemma set_stock_minus_plus (a : Z) (p : Product) :
  set_stock (λ s, sql_minus s a) p = set_stock (λ s, sql_plus s (- a)) p.
Proof.
  destruct p as [? ? ? ? ? ? ? [s|] ? ?]; unfold set_stock; simpl; done.
Qed.

Lemma set_stock_plus_zero (p : Product) : set_stock (λ s, sql_plus s 0) p = p.
Proof.
  destruct p as [? ? ? ? ? ? ? [s|] ? ?]; unfold set_stock; simpl.
  - f_equal. apply (f_equal Some). lia.
  - done.
Qed.

Lemma forEach_stock_add_lookup (items : list InvoiceItem) :
  ∀ (ps : gmap string Product) (k : string),
    forEach_stock stock_add items ps !! k
    = set_stock (λ s, sql_plus s (billed k items)) <$> ps !! k.
Proof.
  unfold forEach_stock.
  induction items as [|item items IH]; intros ps k; simpl.
  - destruct (ps !! k) as [p|]; simpl; [|done]. by rewrite set_stock_plus_zero.
  - rewrite IH.
    destruct (truthy_string (item_productId item)) as [pid|] eqn:Hpid.
    + unfold stock_add. rewrite lookup_alter.
      destruct (decide (pid = k)) as [->|Hne].
      * rewrite bool_decide_eq_true_2 by done.
        destruct (ps !! k) as [p|]; simpl; [|done].
        by rewrite set_stock_plus_plus.
      * rewrite bool_decide_eq_false_2 by congruence. done.
    + rewrite bool_decide_eq_false_2 by done. done.
Qed.

Lemma forEach_stock_sub_lookup (items : list InvoiceItem) :
  ∀ (ps : gmap string Product) (k : string),
    forEach_stock stock_sub items ps !! k
    = set_stock (λ s, sql_plus s (- billed k items)) <$> ps !! k.
Proof.
  unfold forEach_stock.
  induction items as [|item items IH]; intros ps k; simpl.
  - destruct (ps !! k) as [p|]; simpl; [|done]. by rewrite set_stock_plus_zero.
  - rewrite IH.
    destruct (truthy_string (item_productId item)) as [pid|] eqn:Hpid.
    + unfold stock_sub. rewrite lookup_alter.
      destruct (decide (pid = k)) as [->|Hne].
      * rewrite bool_decide_eq_true_2 by done.
        destruct (ps !! k) as [p|]; simpl; [|done].
        rewrite set_stock_minus_plus, set_stock_plus_plus.
        by replace (- item_quantity item + - billed k items)
          with (- (item_quantity item + billed k items)) by lia.
      * rewrite bool_decide_eq_false_2 by congruence. done.
    + rewrite bool_decide_eq_false_2 by done. done.
Qed.


(** ** What the sales invoice operations commit *)

#[local] Arguments forEach_stock : simpl never.

Lemma getById_sales_invoice (id : string) (db : Db) :
  createStore.getById salesInvoicesBase id db = sales_invoices db !! id.
Proof. reflexivity. Qed.

Lemma salesInvoice_create_commits (now : N) (data : SalesInvoiceData) (db : Db) :
  sales_invoices db !! ("si-" +:+ pretty now) = None →
  salesInvoiceStore.create now data db
  = (Returned ("si-" +:+ pretty now, data),
     with_products (forEach_stock stock_sub (data_items data))
       (with_sales_invoices
          (insert ("si-" +:+ pretty now) (salesInvoiceStore.row_of data)) db)).
Proof.
  intros Hfresh.
  unfold salesInvoiceStore.create, transaction, mbind, tx_mbind, tx_bind,
    tx_try, tx_run, sql_insert.
  by rewrite Hfresh.
Qed.






(** ** Sales invoices and stock *)








(** ** Deleting a product *)

Lemma tombstone_unlinked (id name : string) (items : list InvoiceItem) :
  references id items = false → map (tombstone id name) items = items.
Proof.
  unfold references. induction items as [|item items IH]; [done|].
  simpl. intros [Hitem Hrest]%orb_false_iff.
  unfold tombstone at 1. rewrite Hitem. by rewrite IH.
Qed.

Lemma references_true (id : string) (items : list InvoiceItem) :
  references id items = true ↔ ∃ item, item ∈ items ∧ item_productId item = Some id.
Proof.
  unfold references. rewrite existsb_exists. split.
  - intros (item & Hin & Hid). exists item. split; [by apply list_elem_of_In|].
    by apply bool_decide_eq_true in Hid.
  - intros (item & Hin & Hid). exists item. split; [by apply list_elem_of_In|].
    by apply bool_decide_eq_true.
Qed.

Section updateLinkedItems_spec.
Context {R F : Type} (S : Store R F).
Context (items_of : R → JsonText (list InvoiceItem)).
Context (Set_items : list InvoiceItem → F).
Context (id name : string).

(** Writing back the items a row already has does not change the row. *)
Hypothesis assign_same :
  ∀ row items, items_of row = JsonOf items → assign S (Set_items items) row = row.

Lemma toUpdate_elem (t : gmap string R) (rowid : string) (newItems : list InvoiceItem) :
  (rowid, newItems) ∈ toUpdate items_of id name t
  ↔ ∃ row items, t !! rowid = Some row ∧ items_of row = JsonOf items
      ∧ references id items = true ∧ newItems = map (tombstone id name) items.
Proof.
  unfold toUpdate. rewrite list_elem_of_omap. split.
  - intros ([k row] & Hin & Hsome). apply elem_of_map_to_list in Hin.
    simpl in Hsome. destruct (items_of row) as [items|raw] eqn:Hitems; [|done].
    destruct (references id items) eqn:Href; [|done].
    injection Hsome as <- <-. by exists row, items.
  - intros (row & items & Hrow & Hitems & Href & ->).
    exists (rowid, row). split; [by apply elem_of_map_to_list|].
    simpl. by rewrite Hitems, Href.
Qed.

Lemma toUpdate_keys (t : gmap string R) (rowid : string) :
  rowid ∈ (toUpdate items_of id name t).*1
  ↔ ∃ row items, t !! rowid = Some row ∧ items_of row = JsonOf items
      ∧ ∃ item, item ∈ items ∧ item_productId item = Some id.
Proof.
  rewrite list_elem_of_fmap. split.
  - intros ([k newItems] & -> & Hin). simpl.
    apply toUpdate_elem in Hin as (row & items & Hrow & Hitems & Href & _).
    exists row, items. by rewrite <- references_true.
  - intros (row & items & Hrow & Hitems & Href).
    exists (rowid, map (tombstone id name) items). split; [done|].
    apply toUpdate_elem. exists row, items. by rewrite references_true.
Qed.

Lemma toUpdate_NoDup (t : gmap string R) : NoDup (toUpdate items_of id name t).*1.
Proof.
  unfold toUpdate. pose proof (NoDup_fst_map_to_list t) as Hnd.
  induction (map_to_list t) as [|[k row] l IH]; simpl; [constructor|].
  simpl in Hnd. apply NoDup_cons in Hnd as [Hk Hnd].
  assert (Hsub : k ∉ (omap (λ kv : string * R,
              match items_of kv.2 with
              | NotJson _ => None
              | JsonOf items =>
                  if references id items
                  then Some (kv.1, map (tombstone id name) items) else None
              end) l).*1).
  { intros ([k' its] & Hk' & ([k'' row'] & Hin & Hsome)%list_elem_of_omap)%list_elem_of_fmap.
    simpl in Hk', Hsome. subst k'.
    destruct (items_of row') as [items|raw]; [|done].
    destruct (references id items); [|done].
    injection Hsome as Hkey _. simpl in Hkey. apply Hk.
    apply list_elem_of_fmap. exists (k'', row'). split; [by symmetry | done]. }
  destruct (items_of row) as [items|raw]; [|by apply IH].
  destruct (references id items); [|by apply IH].
  simpl. apply NoDup_cons. split; [done|by apply IH].
Qed.

(** Running [UPDATE t SET items = ? WHERE id = ?] for a queue of
    documents with distinct ids. *)
Lemma run_updates_lookup (docs : list (string * list InvoiceItem)) :
  NoDup docs.*1 →
  ∀ (t : gmap string R) (k : string),
    (∀ newItems, (k, newItems) ∈ docs →
       foldl (λ acc doc, alter (assign S (Set_items doc.2)) doc.1 acc) t docs !! k
       = assign S (Set_items newItems) <$> t !! k)
    ∧ (k ∉ docs.*1 →
       foldl (λ acc doc, alter (assign S (Set_items doc.2)) doc.1 acc) t docs !! k
       = t !! k).
Proof.
  induction docs as [|[k0 its0] docs IH]; intros Hnd t k.
  - split; [by intros newItems Hin%elem_of_nil | done].
  - simpl in Hnd. apply NoDup_cons in Hnd as [Hk0 Hnd].
    specialize (IH Hnd (alter (assign S (Set_items its0)) k0 t) k) as [IHin IHout].
    simpl. split.
    + intros newItems [Heq|Hin]%elem_of_cons.
      * injection Heq as -> ->. rewrite IHout by done. apply lookup_alter_eq.
      * rewrite (IHin newItems Hin). rewrite lookup_alter_ne; [done|].
        intros ->. apply Hk0. apply list_elem_of_fmap. by exists (k, newItems).
    + intros Hout. apply not_elem_of_cons in Hout as [Hne Hout].
      rewrite (IHout Hout). by rewrite lookup_alter_ne.
Qed.

Lemma updateLinkedItems_rows (db : Db) :
  (∀ f d, rows S (with_rows S f d) = f (rows S d)) →
  rows S (updateLinkedItems S items_of Set_items id name db)
  = rewrite_linked S items_of Set_items id name <$> rows S db.
Proof.
  intros Hlens. unfold updateLinkedItems. rewrite Hlens.
  apply map_eq. intros k. rewrite lookup_fmap.
  destruct (run_updates_lookup _ (toUpdate_NoDup (rows S db)) (rows S db) k)
    as [Hin Hout].
  destruct (rows S db !! k) as [row|] eqn:Hrow; simpl.
  - unfold rewrite_linked.
    destruct (items_of row) as [items|raw] eqn:Hitems.
    + destruct (references id items) eqn:Href.
      * rewrite (Hin (map (tombstone id name) items)); [done|].
        apply toUpdate_elem. by exists row, items.
      * rewrite tombstone_unlinked, assign_same by done.
        apply Hout. intros (row' & items' & Hrow' & Hitems' & Href')%toUpdate_keys.
        apply references_true in Href'. congruence.
    + apply Hout. intros (row' & items' & Hrow' & Hitems' & _)%toUpdate_keys.
      congruence.
  - apply Hout. intros (row' & items' & Hrow' & _)%toUpdate_keys. congruence.
Qed.
End updateLinkedItems_spec.

Lemma rewrite_linked_sales (id name : string) (row : SalesInvoice) :
  rewrite_linked salesInvoicesBase si_items Set_si_items id name row
  = set_si_items (tombstone_items id name (si_items row)) row.
Proof. unfold rewrite_linked. by destruct row as [? ? ? ? [items|raw] ? ?]. Qed.

Lemma rewrite_linked_purchases (id name : string) (row : PurchaseInvoice) :
  rewrite_linked purchaseInvoicesBase pi_items Set_pi_items id name row
  = set_pi_items (tombstone_items id name (pi_items row)) row.
Proof. unfold rewrite_linked. by destruct row as [? ? ? [items|raw] ? ?]. Qed.

Lemma rewrite_linked_quotations (id name : string) (row : Quotation) :
  rewrite_linked quotationStore quo_items Set_quo_items id name row
  = set_quo_items (tombstone_items id name (quo_items row)) row.
Proof. unfold rewrite_linked. by destruct row as [? ? ? ? [items|raw] ?]. Qed.

Lemma product_delete_commits (id : string) (db : Db) (p : Product) :
  products db !! id = Some p →
  productStore.delete id db
  = (Returned true,
     with_products (sql_delete id)
       (with_stock_adjustments
          (filter (λ kv : string * StockAdjustment, sa_productId kv.2 ≠ id))
          (updateLinkedItems quotationStore quo_items Set_quo_items id (product_name p)
             (updateLinkedItems purchaseInvoicesBase pi_items Set_pi_items id (product_name p)
                (updateLinkedItems salesInvoicesBase si_items Set_si_items id
                   (product_name p) db))))).
Proof.
  intros Hp. unfold productStore.delete, createStore.getById, step_by_id.
  simpl. by rewrite Hp.
Qed.



(** ** Settings *)


(** ** The generic store *)

Lemma createStore_update_empty {R F : Type} (S : Store R F) (id : string) (db : Db) :
  createStore.update S id [] db = (Returned (rows S db !! id), db).
Proof. reflexivity. Qed.

(** C9.  The generic store's [delete] returns true for every id and every
    database, whether or not the table has a row with that id; the table
    afterwards is the old one without that key, which is the old table
    itself when it had no such row. *)
Theorem createStore_delete_returns_true :
  ∀ {R F : Type} (S : Store R F) (id : string) (db : Db),
    (createStore.delete S id db).1 = Returned true
    ∧ (createStore.delete S id db).2 = with_rows S (base.delete id) db
    ∧ (rows S db !! id = None → base.delete id (rows S db) = rows S db).
Proof.
  intros R F S id db. split; [done|]. split; [done|]. apply delete_id.
Qed.

Lemma createStore_delete_returns_true_witness :
  rows productsBase mouse_db !! "pr-1700000000000" = None
  ∧ (createStore.delete productsBase "pr-1700000000000" mouse_db).1 = Returned true
  ∧ base.delete "pr-1700000000000" (rows productsBase mouse_db) = rows productsBase mouse_db.
Proof.
  split; [reflexivity|].
  pose proof (createStore_delete_returns_true productsBase "pr-1700000000000" mouse_db)
    as (Hret & _ & Hsame).
  split; [exact Hret|]. exact (Hsame eq_refl).
Defined.

(** C8.  What [update(id, {})] does.  In each store that keeps
    [createStore]'s [update] (products, customers, suppliers, quotations,
    stock adjustments) it returns the row [getById] finds and leaves the
    database as it is.  The sales invoice and purchase invoice stores
    replace [update] by a version without the empty-partial test: on the
    existing invoices [si-1700000000000] and [pi-1700000000001] the call
    throws SQLite's syntax error (the statement text is
    [UPDATE ... SET  WHERE id = ?]); the rollback leaves the database as it
    was. *)
Theorem update_empty_partial_generic_noop_invoices_throw :
  (∀ {R F : Type} (S : Store R F) (id : string) (db : Db),
     createStore.update S id [] db = (Returned (rows S db !! id), db))
  ∧ (∀ (id : string) (db : Db),
       createStore.update productsBase id [] db = (Returned (products db !! id), db)
       ∧ createStore.update customersBase id [] db = (Returned (customers db !! id), db)
       ∧ createStore.update suppliersBase id [] db = (Returned (suppliers db !! id), db)
       ∧ createStore.update quotationStore id [] db = (Returned (quotations db !! id), db)
       ∧ createStore.update stockAdjustmentStore id [] db
         = (Returned (stock_adjustments db !! id), db))
  ∧ is_Some (sales_invoices purchased_db !! "si-1700000000000")
  ∧ salesInvoiceStore.update "si-1700000000000" [] purchased_db
    = (Thrown (SqliteError "near WHERE: syntax error"), purchased_db)
  ∧ is_Some (purchase_invoices purchased_db !! "pi-1700000000001")
  ∧ purchaseInvoiceStore.update "pi-1700000000001" [] purchased_db
    = (Thrown (SqliteError "near WHERE: syntax error"), purchased_db).
Proof.
  split; [intros; apply createStore_update_empty|].
  split; [by intros id db|].
  split; [by eexists|]. split; [reflexivity|].
  split; [by eexists|]. reflexivity.
Qed.

(** ** Deleting customers and suppliers *)

Lemma step_exists_unbound {R : Type} (column : R → string) (t : gmap string R)
    (args : list string) :
  step_exists column t prepare args = false.
Proof.
  unfold step_exists. induction (map_to_list t) as [|kv l IH]; [done|].
  simpl. exact IH.
Qed.

Lemma customer_delete_always (id : string) (db : Db) :
  customerStore.delete id db = (Returned true, with_customers (base.delete id) db).
Proof. unfold customerStore.delete. by rewrite !step_exists_unbound. Qed.

Lemma supplier_delete_always (id : string) (db : Db) :
  supplierStore.delete id db = (Returned true, with_suppliers (base.delete id) db).
Proof. unfold supplierStore.delete. by rewrite step_exists_unbound. Qed.

(** C5.  What the two guarded deletes do.  Their referential check
    prepares [SELECT 1 FROM ... WHERE customerId = ? LIMIT 1] and hands the
    id to [step], which takes no argument, so the parameter is never bound
    and the query finds no row: for every id and database
    [customerStore.delete] and [supplierStore.delete] return true and remove
    the row.  In [linked_db] customer [c1] is the customer of sales invoice
    [si-1700000000000] and supplier [s1] the supplier of purchase invoice
    [pi-1700000000001]; both deletes return true and the rows are gone. *)
Theorem guarded_delete_removes_referenced_row :
  (∀ (id : string) (db : Db),
     customerStore.delete id db = (Returned true, with_customers (base.delete id) db))
  ∧ (∀ (id : string) (db : Db),
     supplierStore.delete id db = (Returned true, with_suppliers (base.delete id) db))
  ∧ customers linked_db !! "c1" = Some tech_solutions
  ∧ si_customerId <$> sales_invoices linked_db !! "si-1700000000000" = Some "c1"
  ∧ (customerStore.delete "c1" linked_db).1 = Returned true
  ∧ customers (customerStore.delete "c1" linked_db).2 !! "c1" = None
  ∧ suppliers linked_db !! "s1" = Some electro_supplies
  ∧ pi_supplierId <$> purchase_invoices linked_db !! "pi-1700000000001" = Some "s1"
  ∧ (supplierStore.delete "s1" linked_db).1 = Returned true
  ∧ suppliers (supplierStore.delete "s1" linked_db).2 !! "s1" = None.
Proof.
  split; [apply customer_delete_always|].
  split; [apply supplier_delete_always|].
  repeat (split; [reflexivity|]). reflexivity.
Qed.

(** * Further properties *)

(** ** Sums over a table *)

Lemma table_sum_insert_fresh {R : Type} (w : R → Z) (t : gmap string R) (i : string) (x : R) :
  t !! i = None → table_sum w (<[i := x]> t) = w x + table_sum w t.
Proof.
  intros Hi. unfold table_sum.
  rewrite map_fold_insert_L; [done | intros; lia | done].
Qed.



(** ** adjustStock: every outcome *)

Lemma adjustStock_outcome (now : N) (iso productId reason : string) (quantity : Z) (db : Db) :
  productStore.adjustStock now iso productId quantity reason db
  = match products db !! productId with
    | None => (Thrown (ProductNotFound productId), db)
    | Some p =>
        if (quantity <? 0) && (to_number (product_stock p) + quantity <? 0)
        then (Thrown (StockCannotBeNegative (product_stock p) quantity), db)
        else
          match stock_adjustments db !! ("sa-" +:+ pretty now) with
          | Some _ => (Thrown (SqliteError "UNIQUE constraint failed"), db)
          | None =>
              (Returned (Some (set_stock (λ s, sql_plus s quantity) p)),
               with_products (stock_add quantity productId)
                 (with_stock_adjustments
                    (insert ("sa-" +:+ pretty now)
                       (adjustment_row productId iso quantity reason)) db))
          end
    end.
Proof.
  unfold productStore.adjustStock, transaction, mbind, tx_mbind, tx_bind,
    productStore.select_stock, step_by_id, bind. simpl.
  destruct (products db !! productId) as [p|] eqn:Hp; simpl; [|done].
  destruct ((quantity <? 0) && (to_number (product_stock p) + quantity <? 0)); [done|].
  unfold tx_try, tx_run, sql_insert.
  destruct (stock_adjustments db !! ("sa-" +:+ pretty now)); simpl; [done|].
  unfold createStore.getById, step_by_id, bind, stock_add. simpl.
  by rewrite lookup_alter_eq, Hp.
Qed.

(** X1.  [adjustStock] on an id that is not in [products] throws the
    not-found error, and with a log id that is already used (two
    adjustments in the same millisecond) it throws as well, whatever the
    quantity; in both cases the database is the one before the call. *)
Theorem adjustStock_unknown_product_or_used_id :
  ∀ (now : N) (iso productId reason : string) (quantity : Z) (db : Db),
    let result := productStore.adjustStock now iso productId quantity reason db in
    (products db !! productId = None →
       result = (Thrown (ProductNotFound productId), db))
    ∧ (is_Some (stock_adjustments db !! ("sa-" +:+ pretty now)) →
       result.2 = db ∧ ∃ e, result.1 = Thrown e).
Proof.
  intros now iso productId reason quantity db result. subst result.
  rewrite adjustStock_outcome. split.
  - by intros ->.
  - intros [row Hrow]. rewrite Hrow.
    destruct (products db !! productId) as [p|]; [|by eauto].
    destruct ((quantity <? 0) && (to_number (product_stock p) + quantity <? 0));
      by eauto.
Qed.

Lemma adjustStock_unknown_product_or_used_id_witness :
  products mouse_db !! "p9" = None
  ∧ productStore.adjustStock 1700000000000 "2023-11-14T22:13:20.000Z" "p9" 5 "count" mouse_db
    = (Thrown (ProductNotFound "p9"), mouse_db).
Proof.
  split; [reflexivity|].
  exact (proj1 (adjustStock_unknown_product_or_used_id 1700000000000
                  "2023-11-14T22:13:20.000Z" "p9" "count" 5 mouse_db) eq_refl).
Defined.

(** X2.  [adjustStock] never takes a stock below zero: a product whose
    stock is a number [s >= 0] before the call has a stock [s' >= 0] after
    it, whatever the call's arguments and outcome; products other than the
    adjusted one keep their row, and no table but [products] and
    [stock_adjustments] changes. *)
Theorem adjustStock_keeps_stock_non_negative :
  ∀ (now : N) (iso productId reason : string) (quantity : Z) (db : Db)
    (k : string) (p : Product) (s : Z),
    products db !! k = Some p →
    product_stock p = Some s →
    0 ≤ s →
    let result := productStore.adjustStock now iso productId quantity reason db in
    (∃ p' s', products result.2 !! k = Some p' ∧ product_stock p' = Some s' ∧ 0 ≤ s')
    ∧ (k ≠ productId → products result.2 !! k = Some p)
    ∧ sales_invoices result.2 = sales_invoices db
    ∧ purchase_invoices result.2 = purchase_invoices db
    ∧ quotations result.2 = quotations db
    ∧ customers result.2 = customers db
    ∧ suppliers result.2 = suppliers db
    ∧ settings result.2 = settings db.
Proof.
  intros now iso productId reason quantity db k p s Hp Hs Hpos result.
  subst result. rewrite adjustStock_outcome.
  assert (Hsame :
    (∃ p' s', products db !! k = Some p' ∧ product_stock p' = Some s' ∧ 0 ≤ s')
    ∧ (k ≠ productId → products db !! k = Some p)
    ∧ sales_invoices db = sales_invoices db
    ∧ purchase_invoices db = purchase_invoices db
    ∧ quotations db = quotations db
    ∧ customers db = customers db
    ∧ suppliers db = suppliers db
    ∧ settings db = settings db).
  { split; [by exists p, s|]. by split. }
  destruct (products db !! productId) as [q|] eqn:Hq; [|exact Hsame].
  destruct ((quantity <? 0) && (to_number (product_stock q) + quantity <? 0))
    eqn:Hguard; [exact Hsame|].
  destruct (stock_adjustments db !! ("sa-" +:+ pretty now)); [exact Hsame|].
  clear Hsame.
  simpl. unfold stock_add. split; [|split; [|done]].
  - rewrite lookup_alter. destruct (decide (productId = k)) as [->|Hne].
    + rewrite Hp. assert (q = p) as -> by congruence.
      exists (set_stock (λ s0, sql_plus s0 quantity) p), (s + quantity).
      simpl. rewrite Hs. split; [done|]. split; [done|].
      rewrite Hs in Hguard. simpl in Hguard.
      apply andb_false_iff in Hguard as [Hq0|Hq0]; apply Z.ltb_ge in Hq0; lia.
    + by eauto.
  - intros Hne. by rewrite lookup_alter_ne.
Qed.

Lemma adjustStock_keeps_stock_non_negative_witness :
  products mouse_db !! "p1" = Some wireless_mouse
  ∧ product_stock wireless_mouse = Some 150
  ∧ 0 ≤ 150
  ∧ ∃ p' s',
      products (productStore.adjustStock 1700000000000 "2023-11-14T22:13:20.000Z"
                  "p1" (-150) "count" mouse_db).2 !! "p1" = Some p'
      ∧ product_stock p' = Some s' ∧ 0 ≤ s'.
Proof.
  split; [reflexivity|]. split; [reflexivity|]. split; [lia|].
  exact (proj1 (adjustStock_keeps_stock_non_negative 1700000000000
                  "2023-11-14T22:13:20.000Z" "p1" "count" (-150) mouse_db
                  "p1" wireless_mouse 150 eq_refl eq_refl ltac:(lia))).
Defined.

(** ** The ledger *)




(** ** Sales and purchase invoices: what is committed *)


Lemma getById_purchase_invoice (id : string) (db : Db) :
  createStore.getById purchaseInvoicesBase id db = purchase_invoices db !! id.
Proof. reflexivity. Qed.

Lemma purchaseInvoice_create_outcome (now : N) (data : PurchaseInvoiceData) (db : Db) :
  purchaseInvoiceStore_create now data db
  = match purchase_invoices db !! ("pi-" +:+ pretty now) with
    | Some _ => (Thrown (SqliteError "UNIQUE constraint failed"), db)
    | None =>
        (Returned ("pi-" +:+ pretty now, data),
         with_products (forEach_stock stock_add (pdata_items data))
           (with_purchase_invoices
              (insert ("pi-" +:+ pretty now) (purchase_row_of data)) db))
    end.
Proof.
  unfold purchaseInvoiceStore_create, transaction, mbind, tx_mbind, tx_bind,
    tx_try, tx_run, sql_insert.
  by destruct (purchase_invoices db !! ("pi-" +:+ pretty now)).
Qed.



Lemma salesInvoice_delete_outcome (id : string) (db : Db) :
  salesInvoiceStore.delete id db
  = match sales_invoices db !! id with
    | None => (Returned false, db)
    | Some invoice =>
        match si_items invoice with
        | NotJson _ => (Returned false, db)
        | JsonOf items =>
            (Returned true,
             with_sales_invoices (base.delete id)
               (with_products (forEach_stock stock_add items) db))
        end
    end.
Proof.
  unfold salesInvoiceStore.delete. rewrite getById_sales_invoice.
  destruct (sales_invoices db !! id) as [invoice|]; [|done].
  by destruct (si_items invoice).
Qed.

Lemma purchaseInvoice_delete_outcome (id : string) (db : Db) :
  purchaseInvoiceStore_delete id db
  = match purchase_invoices db !! id with
    | None => (Returned false, db)
    | Some invoice =>
        match pi_items invoice with
        | NotJson _ => (Returned false, db)
        | JsonOf items =>
            (Returned true,
             with_purchase_invoices (base.delete id)
               (with_products (forEach_stock stock_sub items) db))
        end
    end.
Proof.
  unfold purchaseInvoiceStore_delete. rewrite getById_purchase_invoice.
  destruct (purchase_invoices db !! id) as [invoice|]; [|done].
  by destruct (pi_items invoice).
Qed.








Lemma Db_eq (db db' : Db) :
  settings db = settings db' → products db = products db' →
  customers db = customers db' → suppliers db = suppliers db' →
  sales_invoices db = sales_invoices db' → quotations db = quotations db' →
  purchase_invoices db = purchase_invoices db' →
  stock_adjustments db = stock_adjustments db' →
  db = db'.
Proof. destruct db, db'. simpl. by intros -> -> -> -> -> -> -> ->. Qed.

(** X6.  [salesInvoiceStore.delete] returns true exactly when the invoice
    is there and its stored items parse.  Then the row is gone and every
    product's stock has grown by what the invoice billed to it; otherwise
    (no such id, or items that do not parse) it returns false and the
    database is the one before the call. *)
Theorem salesInvoice_delete_restocks_or_refuses :
  ∀ (id : string) (db : Db),
    let result := salesInvoiceStore.delete id db in
    (result.1 = Returned true
     ↔ ∃ invoice items, sales_invoices db !! id = Some invoice
                        ∧ si_items invoice = JsonOf items)
    ∧ (result.1 ≠ Returned true → result = (Returned false, db))
    ∧ (∀ invoice items,
         sales_invoices db !! id = Some invoice → si_items invoice = JsonOf items →
         sales_invoices result.2 = base.delete id (sales_invoices db)
         ∧ (∀ k, products result.2 !! k
                 = set_stock (λ s, sql_plus s (billed k items)) <$> products db !! k)
         ∧ stock_adjustments result.2 = stock_adjustments db
         ∧ purchase_invoices result.2 = purchase_invoices db
         ∧ quotations result.2 = quotations db).
Proof.
  intros id db result. subst result. rewrite salesInvoice_delete_outcome.
  destruct (sales_invoices db !! id) as [invoice|].
  - destruct (si_items invoice) as [items|raw] eqn:Hitems.
    + split; [split; [by eauto | done]|]. split; [done|].
      intros ? items' [= <-] Hitems'. rewrite Hitems in Hitems'.
      injection Hitems' as <-. simpl. split; [done|]. split; [|done].
      intros k. apply forEach_stock_add_lookup.
    + split; [split; [done | by intros (? & ? & [= <-] & ?); congruence]|].
      split; [done|]. intros ? ? [= <-] ?. congruence.
  - split; [split; [done | by intros (? & ? & ? & ?)]|]. by split.
Qed.

Lemma salesInvoice_delete_restocks_or_refuses_witness :
  sales_invoices sold_db !! "si-1700000000000"
    = Some (salesInvoiceStore.row_of (mouse_invoice 10))
  ∧ products (salesInvoiceStore.delete "si-1700000000000" sold_db).2 !! "p1"
    = Some wireless_mouse
  ∧ salesInvoiceStore.delete "si-1600000000000" sold_db = (Returned false, sold_db).
Proof.
  split; [reflexivity|].
  pose proof (salesInvoice_delete_restocks_or_refuses "si-1700000000000" sold_db)
    as (_ & _ & Hdone).
  destruct (Hdone _ [mouse_item 10] eq_refl eq_refl) as (_ & Hstock & _).
  split; [by rewrite Hstock|].
  apply (salesInvoice_delete_restocks_or_refuses "si-1600000000000" sold_db).
  discriminate.
Defined.

(** X7.  [purchaseInvoiceStore.delete] returns true exactly when the
    invoice is there and its stored items parse.  Then the row is gone and
    every product's stock has dropped by what the invoice billed to it,
    with no test on the result: a product with stock [s] ends with
    [s - billed], below zero when more was bought on the invoice than is
    left.  Otherwise it returns false and the database is unchanged. *)
Theorem purchaseInvoice_delete_unstocks_or_refuses :
  ∀ (id : string) (db : Db),
    let result := purchaseInvoiceStore_delete id db in
    (result.1 = Returned true
     ↔ ∃ invoice items, purchase_invoices db !! id = Some invoice
                        ∧ pi_items invoice = JsonOf items)
    ∧ (result.1 ≠ Returned true → result = (Returned false, db))
    ∧ (∀ invoice items,
         purchase_invoices db !! id = Some invoice → pi_items invoice = JsonOf items →
         purchase_invoices result.2 = base.delete id (purchase_invoices db)
         ∧ (∀ k p s, products db !! k = Some p → product_stock p = Some s →
                     stock_of k result.2 = Some (Some (s - billed k items)))
         ∧ (∀ k, products db !! k = None → products result.2 !! k = None)
         ∧ stock_adjustments result.2 = stock_adjustments db
         ∧ sales_invoices result.2 = sales_invoices db
         ∧ quotations result.2 = quotations db).
Proof.
  intros id db result. subst result. rewrite purchaseInvoice_delete_outcome.
  destruct (purchase_invoices db !! id) as [invoice|].
  - destruct (pi_items invoice) as [items|raw] eqn:Hitems.
    + split; [split; [by eauto | done]|]. split; [done|].
      intros ? items' [= <-] Hitems'. rewrite Hitems in Hitems'.
      injection Hitems' as <-. simpl. split; [done|]. split; [|split; [|done]].
      * intros k p s Hp Hs. unfold stock_of. simpl.
        rewrite forEach_stock_sub_lookup, Hp. simpl. rewrite Hs. simpl.
        do 2 apply (f_equal Some). lia.
      * intros k Hk. by rewrite forEach_stock_sub_lookup, Hk.
    + split; [split; [done | by intros (? & ? & [= <-] & ?); congruence]|].
      split; [done|]. intros ? ? [= <-] ?. congruence.
  - split; [split; [done | by intros (? & ? & ? & ?)]|]. by split.
Qed.

Lemma purchaseInvoice_delete_unstocks_or_refuses_witness :
  is_Some (purchase_invoices purchased_db !! "pi-1700000000001")
  ∧ products purchased_db !! "p1" = Some (set_stock (λ _, Some 140) wireless_mouse)
  ∧ stock_of "p1" (purchaseInvoiceStore_delete "pi-1700000000001" purchased_db).2
    = Some (Some 120).
Proof.
  split; [by eexists|]. split; [reflexivity|].
  pose proof (purchaseInvoice_delete_unstocks_or_refuses "pi-1700000000001" purchased_db)
    as (_ & _ & Hdone).
  destruct (Hdone _ [mouse_item 20] eq_refl eq_refl) as (_ & Hstock & _).
  exact (Hstock "p1" _ 140 eq_refl eq_refl).
Defined.

(** X8.  [purchaseInvoiceStore.create]: with the generated id unused it
    returns the new invoice, adds its row and raises every product's stock
    by what the items bill to it, touching no other table; with the id
    taken the INSERT fails and the database is the one before the call. *)
Theorem purchaseInvoice_create_increments :
  ∀ (now : N) (data : PurchaseInvoiceData) (db : Db),
    let id := "pi-" +:+ pretty now in
    let result := purchaseInvoiceStore_create now data db in
    (purchase_invoices db !! id = None →
       result.1 = Returned (id, data)
       ∧ purchase_invoices result.2 = <[id := purchase_row_of data]> (purchase_invoices db)
       ∧ (∀ k p s, products db !! k = Some p → product_stock p = Some s →
                   stock_of k result.2 = Some (Some (s + billed k (pdata_items data))))
       ∧ (∀ k, products db !! k = None → products result.2 !! k = None)
       ∧ stock_adjustments result.2 = stock_adjustments db
       ∧ sales_invoices result.2 = sales_invoices db
       ∧ quotations result.2 = quotations db
       ∧ customers result.2 = customers db
       ∧ suppliers result.2 = suppliers db
       ∧ settings result.2 = settings db)
    ∧ (is_Some (purchase_invoices db !! id) →
       result = (Thrown (SqliteError "UNIQUE constraint failed"), db)).
Proof.
  intros now data db id result. subst result id.
  rewrite purchaseInvoice_create_outcome. split.
  - intros ->. simpl. split; [done|]. split; [done|]. split; [|split; [|done]].
    + intros k p s Hp Hs. unfold stock_of. simpl.
      rewrite forEach_stock_add_lookup, Hp. simpl. by rewrite Hs.
    + intros k Hk. by rewrite forEach_stock_add_lookup, Hk.
  - by intros [row ->].
Qed.

Lemma purchaseInvoice_create_increments_witness :
  purchase_invoices mouse_db !! ("pi-" +:+ pretty 1700000000001%N) = None
  ∧ stock_of "p1" (purchaseInvoiceStore_create 1700000000001 (mouse_purchase 20) mouse_db).2
    = Some (Some 170).
Proof.
  split; [reflexivity|].
  destruct (proj1 (purchaseInvoice_create_increments 1700000000001 (mouse_purchase 20)
                     mouse_db) eq_refl) as (_ & _ & Hstock & _).
  exact (Hstock "p1" wireless_mouse 150 eq_refl eq_refl).
Defined.





(** ** The ledger, continued *)

Lemma opening_stock_frame (k : string) (db db' : Db) :
  products db' = products db → stock_adjustments db' = stock_adjustments db →
  purchase_invoices db' = purchase_invoices db → sales_invoices db' = sales_invoices db →
  opening_stock k db' = opening_stock k db.
Proof.
  intros Hp Ha Hpi Hsi. unfold opening_stock, adjusted, purchased, sold.
  by rewrite Hp, Ha, Hpi, Hsi.
Qed.





(** ** Deleting a product, continued *)

Lemma product_delete_outcome (id : string) (db : Db) :
  productStore.delete id db
  = match products db !! id with
    | None => (Returned false, db)
    | Some p =>
        (Returned true,
         {| settings := settings db;
            products := base.delete id (products db);
            customers := customers db;
            suppliers := suppliers db;
            sales_invoices :=
              (λ row, set_si_items (tombstone_items id (product_name p) (si_items row)) row)
                <$> sales_invoices db;
            quotations :=
              (λ row, set_quo_items (tombstone_items id (product_name p) (quo_items row)) row)
                <$> quotations db;
            purchase_invoices :=
              (λ row, set_pi_items (tombstone_items id (product_name p) (pi_items row)) row)
                <$> purchase_invoices db;
            stock_adjustments :=
              filter (λ kv : string * StockAdjustment, sa_productId kv.2 ≠ id)
                (stock_adjustments db) |})
    end.
Proof.
  destruct (products db !! id) as [p|] eqn:Hp.
  - rewrite (product_delete_commits id db p Hp). f_equal.
    set (name := product_name p).
    apply Db_eq; cbn [settings products customers suppliers sales_invoices
                      quotations purchase_invoices stock_adjustments
                      with_products with_stock_adjustments]; try done.
    + transitivity (rewrite_linked salesInvoicesBase si_items Set_si_items id name
                      <$> sales_invoices db).
      * apply (updateLinkedItems_rows salesInvoicesBase si_items Set_si_items id name
                 (λ row items, ltac:(destruct row; simpl; intros ->; done)) db).
        done.
      * apply map_fmap_ext. intros k row _. apply rewrite_linked_sales.
    + transitivity (rewrite_linked quotationStore quo_items Set_quo_items id name
                      <$> quotations db).
      * apply (updateLinkedItems_rows quotationStore quo_items Set_quo_items id name
                 (λ row items, ltac:(destruct row; simpl; intros ->; done))
                 (updateLinkedItems purchaseInvoicesBase pi_items Set_pi_items id name
                    (updateLinkedItems salesInvoicesBase si_items Set_si_items id name db))).
        done.
      * apply map_fmap_ext. intros k row _. apply rewrite_linked_quotations.
    + transitivity (rewrite_linked purchaseInvoicesBase pi_items Set_pi_items id name
                      <$> purchase_invoices db).
      * apply (updateLinkedItems_rows purchaseInvoicesBase pi_items Set_pi_items id name
                 (λ row items, ltac:(destruct row; simpl; intros ->; done))
                 (updateLinkedItems salesInvoicesBase si_items Set_si_items id name db)).
        done.
      * apply map_fmap_ext. intros k row _. apply rewrite_linked_purchases.
  - unfold productStore.delete, createStore.getById, step_by_id. simpl. by rewrite Hp.
Qed.





Lemma table_sum_fmap {R : Type} (w : R → Z) (f : R → R) (t : gmap string R) :
  table_sum w (f <$> t) = table_sum (λ row, w (f row)) t.
Proof. unfold table_sum. by rewrite map_fold_fmap. Qed.

Lemma table_sum_ext {R : Type} (w w' : R → Z) (t : gmap string R) :
  (∀ row, w row = w' row) → table_sum w t = table_sum w' t.
Proof.
  intros Hext. induction t as [|i x t Hi IH] using map_ind; [done|].
  by rewrite !table_sum_insert_fresh, IH, Hext.
Qed.

Lemma table_sum_filter {R : Type} (w : R → Z) (P : string * R → Prop)
    `{!∀ kv, Decision (P kv)} (t : gmap string R) :
  (∀ i row, ¬ P (i, row) → w row = 0) →
  table_sum w (filter P t) = table_sum w t.
Proof.
  intros Hzero. induction t as [|i x t Hi IH] using map_ind.
  - by rewrite map_filter_empty.
  - rewrite (table_sum_insert_fresh w t i x Hi).
    destruct (decide (P (i, x))) as [HP|HP].
    + rewrite map_filter_insert_True by done.
      rewrite table_sum_insert_fresh, IH; [done|].
      apply map_lookup_filter_None. by left.
    + rewrite map_filter_insert_False by done.
      rewrite delete_id by done. rewrite IH, (Hzero i x HP). lia.
Qed.

Lemma tombstone_amounts (id name : string) (item : InvoiceItem) :
  amounts (tombstone id name item) = amounts item.
Proof. unfold tombstone. by destruct (bool_decide _). Qed.

Lemma tombstone_items_amounts (id name : string) (c : JsonText (list InvoiceItem)) :
  document_amounts (tombstone_items id name c) = document_amounts c.
Proof.
  destruct c as [items|raw]; simpl; [|done]. f_equal.
  rewrite <- list_fmap_compose. apply list_fmap_ext. intros i item _.
  apply tombstone_amounts.
Qed.

Lemma tombstone_quantity (id name : string) (item : InvoiceItem) :
  item_quantity (tombstone id name item) = item_quantity item.
Proof. unfold tombstone. by destruct (bool_decide _). Qed.

Lemma tombstone_billed_to (id name k : string) (item : InvoiceItem) :
  k ≠ id →
  bool_decide (truthy_string (item_productId (tombstone id name item)) = Some k)
  = bool_decide (truthy_string (item_productId item) = Some k).
Proof.
  intros Hne. unfold tombstone.
  destruct (bool_decide (item_productId item = Some id)) eqn:Hb; [|done].
  apply bool_decide_eq_true in Hb. cbn [item_productId]. rewrite Hb.
  assert (H1 : truthy_string None ≠ Some k) by (simpl; discriminate).
  assert (H2 : truthy_string (Some id) ≠ Some k)
    by (destruct id as [|c rest]; simpl; congruence).
  by rewrite !bool_decide_eq_false_2.
Qed.

Lemma billed_tombstone (id name k : string) (items : list InvoiceItem) :
  k ≠ id → billed k (map (tombstone id name) items) = billed k items.
Proof.
  intros Hne. unfold billed. induction items as [|item items IH]; [done|].
  simpl. by rewrite IH, tombstone_billed_to, tombstone_quantity.
Qed.

Lemma items_billed_tombstone (id name k : string) (c : JsonText (list InvoiceItem)) :
  k ≠ id → items_billed k (tombstone_items id name c) = items_billed k c.
Proof. intros Hne. destruct c; simpl; [by apply billed_tombstone | done]. Qed.

(** X14.  Deleting a product changes no document's amounts: in every sales
    invoice, purchase invoice and quotation the quantities, rates and tax
    rates are, line by line, what they were (so totals computed from them
    are unchanged), and a row whose items did not parse stays that way. *)
Theorem product_delete_keeps_document_amounts :
  ∀ (id : string) (db : Db) (rowid : string),
    let db' := (productStore.delete id db).2 in
    ((λ row, document_amounts (si_items row)) <$> sales_invoices db' !! rowid
     = (λ row, document_amounts (si_items row)) <$> sales_invoices db !! rowid)
    ∧ ((λ row, document_amounts (pi_items row)) <$> purchase_invoices db' !! rowid
       = (λ row, document_amounts (pi_items row)) <$> purchase_invoices db !! rowid)
    ∧ ((λ row, document_amounts (quo_items row)) <$> quotations db' !! rowid
       = (λ row, document_amounts (quo_items row)) <$> quotations db !! rowid).
Proof.
  intros id db rowid db'. subst db'. rewrite product_delete_outcome.
  destruct (products db !! id) as [p|]; [|done].
  cbn [snd sales_invoices purchase_invoices quotations].
  rewrite !lookup_fmap.
  split; [|split].
  - destruct (sales_invoices db !! rowid) as [row|]; simpl; [|done].
    by rewrite tombstone_items_amounts.
  - destruct (purchase_invoices db !! rowid) as [row|]; simpl; [|done].
    by rewrite tombstone_items_amounts.
  - destruct (quotations db !! rowid) as [row|]; simpl; [|done].
    by rewrite tombstone_items_amounts.
Qed.

(** X15.  Deleting a product keeps the books of every other product: for
    [k] different from the deleted id, stock less adjustments and purchases
    plus sales is the same after [productStore.delete] as before. *)
Theorem product_delete_keeps_other_opening_stock :
  ∀ (id : string) (db : Db) (k : string),
    k ≠ id →
    opening_stock k (productStore.delete id db).2 = opening_stock k db.
Proof.
  intros id db k Hne. rewrite product_delete_outcome.
  destruct (products db !! id) as [p|]; [|done].
  unfold opening_stock, adjusted, purchased, sold.
  cbn [snd sales_invoices purchase_invoices stock_adjustments products].
  rewrite lookup_delete_ne by done.
  rewrite !table_sum_fmap.
  rewrite (table_sum_ext
             (λ row, items_billed k
                       (si_items (set_si_items (tombstone_items id (product_name p)
                                                  (si_items row)) row)))
             (λ row, items_billed k (si_items row)))
    by (intros row; simpl; by apply items_billed_tombstone).
  rewrite (table_sum_ext
             (λ row, items_billed k
                       (pi_items (set_pi_items (tombstone_items id (product_name p)
                                                  (pi_items row)) row)))
             (λ row, items_billed k (pi_items row)))
    by (intros row; simpl; by apply items_billed_tombstone).
  rewrite table_sum_filter; [done|].
  intros i a Ha. simpl in Ha. rewrite bool_decide_eq_false_2; [done|].
  intros Heq. apply Ha. congruence.
Qed.

Lemma product_delete_keeps_other_opening_stock_witness :
  "p2" ≠ "p1"
  ∧ opening_stock "p2" (productStore.delete "p1" two_product_db).2 = Some 80.
Proof.
  assert (Hne : "p2" ≠ "p1") by discriminate.
  split; [exact Hne|].
  rewrite (product_delete_keeps_other_opening_stock "p1" two_product_db "p2" Hne).
  reflexivity.
Defined.

(** ** The generic store, continued *)

Lemma stores_read_what_they_write :
  reads_what_it_writes productsBase ∧ reads_what_it_writes customersBase
  ∧ reads_what_it_writes suppliersBase ∧ reads_what_it_writes quotationStore
  ∧ reads_what_it_writes stockAdjustmentStore
  ∧ reads_what_it_writes salesInvoicesBase
  ∧ reads_what_it_writes purchaseInvoicesBase.
Proof. by repeat split. Qed.

(** X16.  [create] of the generic store, for a store whose table is the
    one it writes: with the generated id ([tableName.slice(0, 2)], a dash,
    [Date.now()]) unused it returns the record under that id, [getById]
    then finds the encoded record, and every other id reads as before;
    with the id taken it throws and the database is unchanged.  So a second
    [create] in the same millisecond, after a successful one, always
    throws and leaves the first record in place. *)
Theorem createStore_create_then_read :
  ∀ {R F D : Type} (S : Store R F) (encode : D → R) (now : N) (data : D) (db : Db),
    reads_what_it_writes S →
    let id := String.substring 0 2 (tableName S) +:+ "-" +:+ pretty now in
    let result := createStore_create S encode now data db in
    (rows S db !! id = None →
       result.1 = Returned (id, data)
       ∧ createStore.getById S id result.2 = Some (encode data)
       ∧ (∀ j, j ≠ id → createStore.getById S j result.2 = createStore.getById S j db)
       ∧ (∀ data', createStore_create S encode now data' result.2
                   = (Thrown (SqliteError "UNIQUE constraint failed"), result.2)))
    ∧ (is_Some (rows S db !! id) →
       result = (Thrown (SqliteError "UNIQUE constraint failed"), db)).
Proof.
  intros R F D S encode now data db Hlens id result. subst result.
  unfold createStore_create, sql_insert. fold id. split.
  - intros Hfresh. rewrite Hfresh. simpl.
    unfold createStore.getById, step_by_id, bind. simpl. rewrite !Hlens.
    split; [done|]. split; [apply lookup_insert_eq|]. split.
    + intros j Hj. by rewrite lookup_insert_ne.
    + intros data'. by rewrite lookup_insert_eq.
  - intros [row Hrow]. by rewrite Hrow.
Qed.

Lemma createStore_create_then_read_witness :
  reads_what_it_writes productsBase
  ∧ products mouse_db !! "pr-1700000000000" = None
  ∧ createStore.getById productsBase "pr-1700000000000"
      (createStore_create productsBase id 1700000000000 mechanical_keyboard mouse_db).2
    = Some mechanical_keyboard.
Proof.
  assert (Hlens : reads_what_it_writes productsBase) by done.
  split; [exact Hlens|]. split; [reflexivity|].
  exact (proj1 (proj2 (proj1 (createStore_create_then_read productsBase id
                                1700000000000 mechanical_keyboard mouse_db Hlens)
                         eq_refl))).
Defined.

(** X17.  [update] of the generic store with a non-empty partial record,
    for a store whose table is the one it writes: on an id that is not
    there it returns undefined and the table is unchanged (no row is
    created); on an existing row it returns that row with the entries
    written into it, stores it under the same id and leaves every other row
    as it was. *)
Theorem createStore_update_writes_one_row :
  ∀ {R F : Type} (S : Store R F) (id : string) (data : list F) (db : Db),
    reads_what_it_writes S →
    data ≠ [] →
    let result := createStore.update S id data db in
    (rows S db !! id = None →
       result.1 = Returned None ∧ rows S result.2 = rows S db)
    ∧ (∀ row, rows S db !! id = Some row →
         let row' := foldl (λ r e, assign S e r) row data in
         result.1 = Returned (Some row')
         ∧ rows S result.2 = <[id := row']> (rows S db)
         ∧ ∀ j, j ≠ id → createStore.getById S j result.2 = createStore.getById S j db).
Proof.
  intros R F S id data db Hlens Hdata result. subst result.
  destruct data as [|e data]; [done|].
  unfold createStore.update, sql_update_set, createStore.getById, step_by_id, bind.
  simpl. rewrite !Hlens. split.
  - intros Hnone. rewrite lookup_alter_eq, Hnone. split; [done|].
    apply map_eq. intros j. rewrite lookup_alter.
    destruct (decide (id = j)) as [<-|]; [by rewrite Hnone | done].
  - intros row Hrow. rewrite lookup_alter_eq, Hrow. split; [done|]. split.
    + exact (alter_as_insert
               (λ r, foldl (λ r0 e0, assign S e0 r0) (assign S e r) data)
               id (rows S db) row Hrow).
    + intros j Hj. by rewrite lookup_alter_ne.
Qed.

Lemma createStore_update_writes_one_row_witness :
  reads_what_it_writes productsBase
  ∧ [Set_product_salePrice 2599] ≠ []
  ∧ (createStore.update productsBase "p9" [Set_product_salePrice 2599] mouse_db).1
    = Returned None.
Proof.
  assert (Hlens : reads_what_it_writes productsBase) by done.
  assert (Hdata : [Set_product_salePrice 2599] ≠ []) by discriminate.
  split; [exact Hlens|]. split; [exact Hdata|].
  exact (proj1 (proj1 (createStore_update_writes_one_row productsBase "p9"
                         [Set_product_salePrice 2599] mouse_db Hlens Hdata) eq_refl)).
Defined.

(** X18.  [delete] of the generic store, for a store whose table is the
    one it writes: afterwards [getById] finds nothing under the id, every
    other id reads as before, and deleting the same id again leaves the
    table as it is. *)
Theorem createStore_delete_then_read :
  ∀ {R F : Type} (S : Store R F) (id : string) (db : Db),
    reads_what_it_writes S →
    let db' := (createStore.delete S id db).2 in
    createStore.getById S id db' = None
    ∧ (∀ j, j ≠ id → createStore.getById S j db' = createStore.getById S j db)
    ∧ rows S (createStore.delete S id db').2 = rows S db'.
Proof.
  intros R F S id db Hlens db'. subst db'.
  unfold createStore.delete, createStore.getById, step_by_id, bind, sql_delete.
  simpl. rewrite !Hlens. split; [apply lookup_delete_eq|]. split.
  - intros j Hj. by rewrite lookup_delete_ne.
  - apply delete_delete_eq.
Qed.

Lemma createStore_delete_then_read_witness :
  reads_what_it_writes productsBase
  ∧ createStore.getById productsBase "p1" (createStore.delete productsBase "p1" mouse_db).2
    = None.
Proof.
  assert (Hlens : reads_what_it_writes productsBase) by done.
  split; [exact Hlens|].
  exact (proj1 (createStore_delete_then_read productsBase "p1" mouse_db Hlens)).
Defined.

Lemma assign_product_keeps_stock (e : ProductField) (p : Product) :
  (∀ v, e ≠ Set_product_stock v) →
  product_stock (assign_product e p) = product_stock p.
Proof.
  intros He. destruct p, e; simpl; try done. by destruct (He v).
Qed.

Lemma product_entries_keep_stock (data : list ProductField) :
  (∀ v, Set_product_stock v ∉ data) →
  ∀ p, product_stock (foldl (λ r e, assign_product e r) p data) = product_stock p.
Proof.
  induction data as [|e data IH]; intros Habsent p; [done|].
  simpl. rewrite IH.
  - apply assign_product_keeps_stock. intros v ->. apply (Habsent v). by left.
  - intros v Hv. apply (Habsent v). by right.
Qed.

(** X19.  A product update that carries no [stock] entry (as the product
    form sends for goods) changes no stock: every product's stock column
    reads the same after [update] as before. *)
Theorem product_update_without_stock_keeps_stock :
  ∀ (id : string) (data : list ProductField) (db : Db),
    (∀ v, Set_product_stock v ∉ data) →
    ∀ k, stock_of k (createStore.update productsBase id data db).2 = stock_of k db.
Proof.
  intros id data db Habsent k.
  destruct data as [|e data]; [done|].
  unfold createStore.update, sql_update_set, stock_of. simpl.
  rewrite lookup_alter. destruct (decide (id = k)) as [->|]; [|done].
  destruct (products db !! k) as [p|]; simpl; [|done]. f_equal.
  exact (product_entries_keep_stock (e :: data) Habsent p).
Qed.

Lemma product_update_without_stock_keeps_stock_witness :
  (∀ v, Set_product_stock v ∉ [Set_product_name "Mouse"; Set_product_sku None])
  ∧ stock_of "p1"
      (createStore.update productsBase "p1"
         [Set_product_name "Mouse"; Set_product_sku None] mouse_db).2
    = Some (Some 150).
Proof.
  assert (Habsent : ∀ v, Set_product_stock v ∉ [Set_product_name "Mouse"; Set_product_sku None]).
  { intros v Hv. repeat (apply elem_of_cons in Hv as [Hv|Hv]; [discriminate|]).
    by apply elem_of_nil in Hv. }
  split; [exact Habsent|].
  rewrite (product_update_without_stock_keeps_stock "p1" _ mouse_db Habsent "p1").
  reflexivity.
Defined.

(** X20.  Quotations do not take part in the stock ledger: creating,
    updating or deleting a quotation leaves the products table, the
    adjustment log and both invoice tables as they were, and with them
    every product's books. *)
Theorem quotation_operations_leave_stock_alone :
  ∀ (db : Db),
    (∀ now data,
       let db' := (createStore_create quotationStore encode_quotation now data db).2 in
       products db' = products db ∧ stock_adjustments db' = stock_adjustments db
       ∧ sales_invoices db' = sales_invoices db
       ∧ purchase_invoices db' = purchase_invoices db
       ∧ ∀ k, opening_stock k db' = opening_stock k db)
    ∧ (∀ id data,
         let db' := (createStore.update quotationStore id data db).2 in
         products db' = products db ∧ stock_adjustments db' = stock_adjustments db
         ∧ sales_invoices db' = sales_invoices db
         ∧ purchase_invoices db' = purchase_invoices db
         ∧ ∀ k, opening_stock k db' = opening_stock k db)
    ∧ (∀ id,
         let db' := (createStore.delete quotationStore id db).2 in
         products db' = products db ∧ stock_adjustments db' = stock_adjustments db
         ∧ sales_invoices db' = sales_invoices db
         ∧ purchase_invoices db' = purchase_invoices db
         ∧ ∀ k, opening_stock k db' = opening_stock k db).
Proof.
  intros db.
  assert (Hframe : ∀ db', products db' = products db →
            stock_adjustments db' = stock_adjustments db →
            sales_invoices db' = sales_invoices db →
            purchase_invoices db' = purchase_invoices db →
            products db' = products db ∧ stock_adjustments db' = stock_adjustments db
            ∧ sales_invoices db' = sales_invoices db
            ∧ purchase_invoices db' = purchase_invoices db
            ∧ ∀ k, opening_stock k db' = opening_stock k db).
  { intros db' ? ? ? ?. repeat (split; [done|]). intros k.
    by apply opening_stock_frame. }
  split; [|split].
  - intros now data db'. subst db'. unfold createStore_create.
    destruct (sql_insert _ _ _); by apply Hframe.
  - intros id data db'. subst db'. unfold createStore.update.
    destruct data as [|e data]; [by apply Hframe|].
    destruct (sql_update_set _ _ _ _); by apply Hframe.
  - intros id db'. subst db'. by apply Hframe.
Qed.

(** ** Settings, continued *)

Lemma assoc_set_member (k k' : string) (v : json) (ms : list (string * json)) :
  assoc k (set_member k' v ms) = if bool_decide (k' = k) then Some v else assoc k ms.
Proof.
  induction ms as [|[k0 v0] ms IH]; simpl.
  - done.
  - destruct (bool_decide (k0 = k')) eqn:H0; simpl.
    + apply bool_decide_eq_true in H0 as ->.
      by destruct (bool_decide (k' = k)).
    + rewrite IH. apply bool_decide_eq_false in H0.
      destruct (bool_decide (k0 = k)) eqn:H1; [|done].
      apply bool_decide_eq_true in H1 as ->.
      by rewrite bool_decide_eq_false_2 by congruence.
Qed.

Lemma assoc_spread (k : string) (source : json) (target : list (string * json)) :
  assoc k (spread target source)
  = match member k source with
    | Some v => Some v
    | None => assoc k target
    end.
Proof.
  unfold member, spread.
  induction (own_entries source) as [|[k' v'] entries IH] using rev_ind; [done|].
  rewrite !foldl_snoc. simpl. rewrite !assoc_set_member, IH.
  by destruct (bool_decide (k' = k)).
Qed.

Lemma set_member_fresh (k : string) (v : json) (ms : list (string * json)) :
  k ∉ ms.*1 → set_member k v ms = ms ++ [(k, v)].
Proof.
  induction ms as [|[k0 v0] ms IH]; simpl; [done|].
  intros [Hne Hrest]%not_elem_of_cons.
  rewrite bool_decide_eq_false_2 by congruence. by rewrite IH.
Qed.

Lemma set_member_keys (k : string) (v : json) (ms : list (string * json)) :
  (set_member k v ms).*1 = if bool_decide (k ∈ ms.*1) then ms.*1 else ms.*1 ++ [k].
Proof.
  induction ms as [|[k0 v0] ms IH].
  - cbn [set_member fmap list_fmap fst app].
    rewrite bool_decide_eq_false_2; [done|]. apply not_elem_of_nil.
  - cbn [set_member]. destruct (bool_decide (k0 = k)) eqn:H0.
    + apply bool_decide_eq_true in H0 as ->.
      rewrite bool_decide_eq_true_2; [done|]. rewrite fmap_cons. by left.
    + apply bool_decide_eq_false in H0. rewrite !fmap_cons, IH.
      cbn [fst].
      destruct (bool_decide (k ∈ ms.*1)) eqn:H1.
      * apply bool_decide_eq_true in H1.
        rewrite bool_decide_eq_true_2; [done|]. by right.
      * apply bool_decide_eq_false in H1.
        rewrite bool_decide_eq_false_2; [done|].
        intros [?|?]%elem_of_cons; congruence.
Qed.

Lemma spread_keys_NoDup (source : json) (target : list (string * json)) :
  NoDup target.*1 → NoDup (spread target source).*1.
Proof.
  unfold spread. revert target.
  induction (own_entries source) as [|[k v] entries IH]; intros target Hnd; [done|].
  simpl. apply IH. rewrite set_member_keys.
  destruct (bool_decide (k ∈ target.*1)) eqn:Hk; [done|].
  apply bool_decide_eq_false in Hk.
  apply NoDup_app. split; [done|]. split; [|apply NoDup_singleton].
  intros x Hx ->%list_elem_of_singleton. done.
Qed.

Lemma rebuild_distinct (ms target : list (string * json)) :
  NoDup (target ++ ms).*1 →
  foldl (λ acc kv, set_member kv.1 kv.2 acc) target ms = target ++ ms.
Proof.
  revert target. induction ms as [|[k v] ms IH]; intros target Hnd; simpl.
  - by rewrite app_nil_r.
  - rewrite set_member_fresh.
    + rewrite IH; [by rewrite <- app_assoc|]. by rewrite <- app_assoc.
    + rewrite fmap_app in Hnd. apply NoDup_app in Hnd as (_ & Hdisj & _).
      intros Hin. apply (Hdisj k Hin). simpl. by left.
Qed.

Lemma member_object_spread (k : string) (a b : json) :
  member k (object_spread a b)
  = match member k b with
    | Some v => Some v
    | None => member k a
    end.
Proof.
  unfold object_spread. unfold member at 1. unfold spread at 1. simpl.
  rewrite rebuild_distinct.
  - simpl. apply assoc_spread.
  - simpl. apply spread_keys_NoDup, spread_keys_NoDup. constructor.
Qed.

Lemma settings_get_outcome (db : Db) :
  settingsStore.get db
  = (Returned {| companyDetails :=
                   settingsStore.parse_or DUMMY_COMPANY_DETAILS
                     (settings db !! "companyDetails");
                 invoiceSettings :=
                   settingsStore.parse_or DUMMY_INVOICE_SETTINGS
                     (settings db !! "invoiceSettings") |},
     with_settings
       (λ t, <["invoiceSettings" :=
                 JsonOf (settingsStore.parse_or DUMMY_INVOICE_SETTINGS
                           (settings db !! "invoiceSettings"))]>
               (<["companyDetails" :=
                    JsonOf (settingsStore.parse_or DUMMY_COMPANY_DETAILS
                              (settings db !! "companyDetails"))]> t)) db).
Proof. reflexivity. Qed.

(** X21.  [settingsStore.update] merges section by section and member by
    member: in each of the two sections of the returned settings a member
    has the value the partial record gives it in that section, and
    otherwise the value it had in the current settings (those [get]
    returns).  A section the partial record does not carry keeps every
    member, whatever the other section carries. *)
Theorem settings_update_merges_members :
  ∀ (data : PartialAppSettings) (db db1 : Db) (current : AppSettings),
    settingsStore.get db = (Returned current, db1) →
    ∃ new,
      (settingsStore_update data db).1 = Returned new
      ∧ (∀ k, member k (companyDetails new)
              = match member k (or_empty_object (partial_companyDetails data)) with
                | Some v => Some v
                | None => member k (companyDetails current)
                end)
      ∧ (∀ k, member k (invoiceSettings new)
              = match member k (or_empty_object (partial_invoiceSettings data)) with
                | Some v => Some v
                | None => member k (invoiceSettings current)
                end)
      ∧ (partial_companyDetails data = None →
         ∀ k, member k (companyDetails new) = member k (companyDetails current))
      ∧ (partial_invoiceSettings data = None →
         ∀ k, member k (invoiceSettings new) = member k (invoiceSettings current)).
Proof.
  intros data db db1 current Hget. unfold settingsStore_update. rewrite Hget.
  eexists. split; [reflexivity|]. simpl.
  split; [intros k; apply member_object_spread|].
  split; [intros k; apply member_object_spread|].
  split; intros -> k; by rewrite member_object_spread.
Qed.

Lemma settings_update_merges_members_witness :
  settingsStore.get createTables
    = (Returned {| companyDetails := DUMMY_COMPANY_DETAILS;
                   invoiceSettings := DUMMY_INVOICE_SETTINGS |},
       seedDatabase createTables)
  ∧ ∃ new,
      (settingsStore_update
         {| partial_companyDetails := None;
            partial_invoiceSettings := Some (JObj [("nextInvoiceNumber", JNum 6)]) |}
         createTables).1 = Returned new
      ∧ member "nextInvoiceNumber" (invoiceSettings new) = Some (JNum 6)
      ∧ member "invoiceNumberPrefix" (invoiceSettings new) = Some (JStr "INV-")
      ∧ member "name" (companyDetails new) = Some (JStr "LRGP").
Proof.
  assert (Hget : settingsStore.get createTables
            = (Returned {| companyDetails := DUMMY_COMPANY_DETAILS;
                           invoiceSettings := DUMMY_INVOICE_SETTINGS |},
               seedDatabase createTables)) by reflexivity.
  split; [exact Hget|].
  destruct (settings_update_merges_members
              {| partial_companyDetails := None;
                 partial_invoiceSettings := Some (JObj [("nextInvoiceNumber", JNum 6)]) |}
              createTables _ _ Hget) as (new & Hnew & Hc & Hi & _).
  exists new. split; [exact Hnew|].
  split; [by rewrite Hi|]. split; [by rewrite Hi|]. by rewrite Hc.
Defined.

(** X22.  What [settingsStore.update] returns is what is stored: a [get]
    right after it returns the same settings and leaves the database as
    [update] left it.  Nothing but the settings table is written. *)
Theorem settings_update_then_get :
  ∀ (data : PartialAppSettings) (db : Db),
    let result := settingsStore_update data db in
    settingsStore.get result.2 = (result.1, result.2)
    ∧ products result.2 = products db
    ∧ customers result.2 = customers db
    ∧ suppliers result.2 = suppliers db
    ∧ sales_invoices result.2 = sales_invoices db
    ∧ quotations result.2 = quotations db
    ∧ purchase_invoices result.2 = purchase_invoices db
    ∧ stock_adjustments result.2 = stock_adjustments db.
Proof.
  intros data db result. subst result.
  unfold settingsStore_update. rewrite (settings_get_outcome db).
  cbn [fst snd]. split; [|done].
  rewrite settings_get_outcome.
  cbn [settings with_settings companyDetails invoiceSettings].
  rewrite lookup_insert_ne by done. rewrite !lookup_insert_eq. simpl.
  f_equal. apply Db_eq; cbn [settings products customers suppliers sales_invoices
                             quotations purchase_invoices stock_adjustments
                             with_settings]; try done.
  apply map_eq. intros k. rewrite !lookup_insert.
  by repeat case_decide.
Qed.


(** ** The forms' checks and the store *)

Lemma find_product_getAll (id : string) (db : Db) :
  find_product id (createStore_getAll productsBase db) = products db !! id.
Proof.
  unfold find_product, createStore_getAll. simpl.
  destruct (list_find _ _) as [[i [k p]]|] eqn:Hfind; simpl.
  - apply list_find_Some in Hfind as (Hi & Hk & _). simpl in Hk. subst k.
    symmetry. apply elem_of_map_to_list. by eapply list_elem_of_lookup_2.
  - destruct (products db !! id) as [p|] eqn:Hp; [|done].
    apply list_find_None in Hfind.
    apply elem_of_map_to_list in Hp.
    rewrite Forall_forall in Hfind. by destruct (Hfind _ Hp).
Qed.

Lemma stock_check_passes (products : list (string * Product))
    (record : option (list InvoiceItem)) (numericItems : list NumericItem) :
  stock_check products record numericItems = None →
  ∀ item, item ∈ numericItems → low_stock_line products record item = None.
Proof.
  unfold stock_check. induction numericItems as [|item0 items IH]; simpl.
  - by intros _ item Hin%elem_of_nil.
  - destruct (low_stock_line products record item0) eqn:Hline; [done|].
    intros Hrest item [->|Hin]%elem_of_cons; [done | by apply IH].
Qed.

Lemma billed_not_listed (k : string) (items : list InvoiceItem) :
  k ∉ omap item_productId items → billed k items = 0.
Proof.
  unfold billed. induction items as [|item items IH]; simpl; [done|].
  destruct (item_productId item) as [pid|] eqn:Hpid; simpl.
  - intros [Hne Hrest]%not_elem_of_cons. rewrite IH by done.
    rewrite bool_decide_eq_false_2; [done|].
    destruct pid as [|c rest]; simpl; congruence.
  - intros Hrest. by rewrite IH.
Qed.

Lemma billed_one_line_bound (k : string) (s : Z) (items : list InvoiceItem) :
  0 ≤ s →
  NoDup (omap item_productId items) →
  (∀ item, item ∈ items → item_productId item = Some k → item_quantity item ≤ s) →
  billed k items ≤ s.
Proof.
  intros Hs. induction items as [|item items IH]; simpl; [done|].
  intros Hnd Hbound.
  assert (Hrest : ∀ i, i ∈ items → item_productId i = Some k → item_quantity i ≤ s).
  { intros i Hi. apply Hbound. by right. }
  destruct (item_productId item) as [pid|] eqn:Hpid; simpl in Hnd.
  - apply NoDup_cons in Hnd as [Hfresh Hnd].
    destruct (bool_decide (truthy_string (Some pid) = Some k)) eqn:Hk.
    + apply bool_decide_eq_true in Hk.
      assert (pid = k) as -> by (destruct pid; simpl in Hk; congruence).
      fold (billed k items). rewrite (billed_not_listed k items Hfresh).
      specialize (Hbound item ltac:(by left) Hpid). lia.
    + by apply IH.
  - rewrite bool_decide_eq_false_2 by done. by apply IH.
Qed.

(** X24.  The sales form's stock check is enough for a new invoice that
    names each product on at most one line: when the check passes on the
    products as they are in the store and the invoice is created from the
    form's final items, every product that is not a service and had a
    stock [s >= 0] has a stock [s' >= 0] afterwards. *)
Theorem sales_form_check_keeps_stock_non_negative :
  ∀ (now : N) (data : SalesInvoiceData) (db : Db) (numericItems : list NumericItem),
    sales_invoices db !! ("si-" +:+ pretty now) = None →
    data_items data = final_items numericItems →
    stock_check (createStore_getAll productsBase db) None numericItems = None →
    NoDup (omap item_productId (final_items numericItems)) →
    ∀ k p s,
      products db !! k = Some p → product_isService p = false →
      product_stock p = Some s → 0 ≤ s →
      ∃ s', stock_of k (salesInvoiceStore.create now data db).2 = Some (Some s')
            ∧ 0 ≤ s'.
Proof.
  intros now data db numericItems Hfresh Hitems Hcheck Hnd k p s Hp Hgoods Hs Hpos.
  rewrite (salesInvoice_create_commits now data db Hfresh).
  unfold stock_of. cbn [snd products with_products with_sales_invoices].
  rewrite forEach_stock_sub_lookup, Hp, Hitems. simpl. rewrite Hs. simpl.
  eexists. split; [reflexivity|].
  assert (billed k (final_items numericItems) ≤ s); [|lia].
  apply billed_one_line_bound; [done..|].
  intros item Hin Hid.
  unfold final_items in Hin.
  apply list_elem_of_fmap in Hin as (line & -> & Hline).
  apply list_elem_of_filter in Hline as [Hkeep Hline].
  simpl in Hid. simpl.
  destruct (bool_decide (form_productId line = "custom")) eqn:Hcustom; [done|].
  apply bool_decide_eq_false in Hcustom. injection Hid as Hid.
  destruct Hkeep as [[Hchosen Hq]|[? _]]; [|done].
  pose proof (stock_check_passes _ _ _ Hcheck line Hline) as Hok.
  unfold low_stock_line in Hok.
  rewrite !bool_decide_eq_true_2 in Hok by done.
  rewrite (proj2 (Z.ltb_lt _ _) Hq) in Hok. simpl in Hok.
  rewrite Hid, find_product_getAll, Hp, Hgoods, Hs in Hok. simpl in Hok.
  destruct (s + 0 <? form_quantity line) eqn:Hlow; [done|].
  apply Z.ltb_ge in Hlow. lia.
Qed.

Lemma sales_form_check_keeps_stock_non_negative_witness :
  sales_invoices mouse_db !! ("si-" +:+ pretty 1700000000000%N) = None
  ∧ stock_check (createStore_getAll productsBase mouse_db) None [mouse_line 150] = None
  ∧ NoDup (omap item_productId (final_items [mouse_line 150]))
  ∧ ∃ s', stock_of "p1"
            (salesInvoiceStore.create 1700000000000 (form_invoice [mouse_line 150])
               mouse_db).2 = Some (Some s')
          ∧ 0 ≤ s'.
Proof.
  assert (Hnd : NoDup (omap item_productId (final_items [mouse_line 150]))).
  { apply NoDup_singleton. }
  split; [reflexivity|]. split; [reflexivity|]. split; [exact Hnd|].
  exact (sales_form_check_keeps_stock_non_negative 1700000000000
           (form_invoice [mouse_line 150]) mouse_db [mouse_line 150]
           eq_refl eq_refl eq_refl Hnd "p1" wireless_mouse 150
           eq_refl eq_refl eq_refl ltac:(lia)).
Defined.

(** X25.  The stock adjustment form and the store.  When the form's check
    passes on the products as they are in the store, the product has a
    numeric stock and the log id is unused, [adjustStock] does not throw:
    it returns the product with the quantity added.  For a product whose
    stock is NULL the form lets a negative quantity through and the store
    rejects it. *)
Theorem adjustment_form_check_and_store :
  ∀ (now : N) (iso productId reason : string) (quantity : Z) (db : Db) (p : Product),
    adjustment_form_check (createStore_getAll productsBase db) productId quantity = true →
    products db !! productId = Some p →
    let result := productStore.adjustStock now iso productId quantity reason db in
    (∀ s, product_stock p = Some s →
          stock_adjustments db !! ("sa-" +:+ pretty now) = None →
          result.1 = Returned (Some (set_stock (λ _, Some (s + quantity)) p)))
    ∧ (product_stock p = None → quantity < 0 →
       result = (Thrown (StockCannotBeNegative None quantity), db)).
Proof.
  intros now iso productId reason quantity db p Hcheck Hp result. subst result.
  rewrite adjustStock_outcome, Hp.
  unfold adjustment_form_check in Hcheck.
  destruct (bool_decide (productId = "") || (quantity =? 0)); [done|].
  rewrite find_product_getAll, Hp in Hcheck. split.
  - intros s Hs Hfresh. rewrite Hs in *. simpl.
    destruct (quantity <? 0) eqn:Hq; simpl.
    + apply negb_true_iff in Hcheck. rewrite Hcheck, Hfresh. simpl.
      unfold set_stock. by rewrite Hs.
    + rewrite Hfresh. simpl. unfold set_stock. by rewrite Hs.
  - intros Hnull Hneg. rewrite Hnull. simpl.
    rewrite (proj2 (Z.ltb_lt _ _) Hneg). rewrite Z.add_0_l.
    by rewrite (proj2 (Z.ltb_lt _ _) Hneg).
Qed.

Lemma adjustment_form_check_and_store_witness :
  adjustment_form_check (createStore_getAll productsBase mouse_db) "p1" (-150) = true
  ∧ products mouse_db !! "p1" = Some wireless_mouse
  ∧ (productStore.adjustStock 1700000000000 "2023-11-14T22:13:20.000Z" "p1" (-150)
       "count" mouse_db).1
    = Returned (Some (set_stock (λ _, Some 0) wireless_mouse)).
Proof.
  split; [reflexivity|]. split; [reflexivity|].
  exact (proj1 (adjustment_form_check_and_store 1700000000000
                  "2023-11-14T22:13:20.000Z" "p1" "count" (-150) mouse_db
                  wireless_mouse eq_refl eq_refl) 150 eq_refl eq_refl).
Defined.

Lemma linked_documents_length {R : Type} (items_of : R → JsonText (list InvoiceItem))
    (id name : string) (docs : list (string * R)) :
  ∀ n, linked_documents items_of id docs = Some n →
       length (omap (λ kv : string * R,
                 match items_of kv.2 with
                 | NotJson _ => None
                 | JsonOf items =>
                     if references id items
                     then Some (kv.1, map (tombstone id name) items) else None
                 end) docs) = n.
Proof.
  induction docs as [|doc docs IH]; simpl; intros n.
  - by intros [= <-].
  - destruct (items_of doc.2) as [items|raw]; [|done].
    destruct (linked_documents items_of id docs) as [m|] eqn:Hrest; [|done].
    intros [= <-]. specialize (IH m eq_refl).
    destruct (references id items); simpl; [f_equal|]; exact IH.
Qed.

(** X26.  The number of linked documents the product delete dialog counts
    in a table is the number of rows [productStore.delete] rewrites in
    that table, whenever the dialog can count at all (it throws when a
    document's items did not parse). *)
Theorem delete_dialog_counts_rewritten_documents :
  ∀ (id name : string) (db : Db) (n : nat),
    (linked_documents si_items id (createStore_getAll salesInvoicesBase db) = Some n →
     length (toUpdate si_items id name (sales_invoices db)) = n)
    ∧ (linked_documents pi_items id (createStore_getAll purchaseInvoicesBase db) = Some n →
       length (toUpdate pi_items id name (purchase_invoices db)) = n)
    ∧ (linked_documents quo_items id (createStore_getAll quotationStore db) = Some n →
       length (toUpdate quo_items id name (quotations db)) = n).
Proof.
  intros id name db n. unfold createStore_getAll, toUpdate. simpl.
  split; [|split]; apply linked_documents_length.
Qed.

Lemma delete_dialog_counts_rewritten_documents_witness :
  linked_documents si_items "p1" (createStore_getAll salesInvoicesBase sold_db) = Some 1%nat
  ∧ length (toUpdate si_items "p1" "Wireless Mouse" (sales_invoices sold_db)) = 1%nat.
Proof.
  split; [reflexivity|].
  exact (proj1 (delete_dialog_counts_rewritten_documents "p1" "Wireless Mouse" sold_db 1)
           eq_refl).
Defined.
